(** * The scoreboard's point / game / set scoring, embedded from the source.

    Sources embedded here:
    - [src/App.tsx]: the [Team] and [GameSettings] types and the initial
      values of the two [useState<Team>] hooks;
    - the [Scoreboard] component: [addPoint], [removePoint], [handleGesture]
      and the "Switch Server" button;
    - [src/components/Settings.tsx]: [handleReset] and the checks of
      [handleImageUpload];
    - the [Scoreboard] component again: [formatTime] and [updateScoreboard];
    - the [ImageUpload] component and the media helpers: the checks of
      [handleFileChange], [validateImageFile], [rgbToHex]
      (also [src/utils/colorUtils.ts]).

    The two teams live in two React state hooks.  A handler reads the values
    [team1] / [team2] captured by the render it was created in, and queues
    updater functions with [setTeam1] / [setTeam2]; React runs the queued
    updaters of a hook in order.  The embedding keeps both sides apart: the
    captured values are explicit arguments of a handler, and a handler denotes
    a command over the [Store] holding the two hooks. *)

From Stdlib Require Import ZArith Bool List String Ascii Lia.
From Stdlib Require DecimalString HexadecimalString.
Import ListNotations.

Local Open Scope Z_scope.

(** ** JavaScript helpers *)

Module Js.

(** [Math.ceil(n / 2)] for an integer [n] ([/] on [Z] rounds down). *)
Definition ceil_half (n : Z) : Z := (n + 1) / 2.

(** [!x] for a field declared [x?: boolean]: [undefined] is falsy. *)
Definition not (x : option bool) : bool :=
  match x with
  | Some b => negb b
  | None => true
  end.

End Js.

(** ** Data model ([src/App.tsx]) *)

(** [points: '0' | '15' | '30' | '40' | 'Ad'] *)
Inductive Points : Type := P0 | P15 | P30 | P40 | Ad.

Record Team : Type := mkTeam {
  name : string;
  logo : option string;
  players : list string;
  sets : Z;
  games : Z;
  points : Points;
  tiebreakPoints : option Z;
  isServing : option bool
}.

(** The rule fields of [GameSettings]; the remaining fields of the type
    (titles, layout, sponsor, appearance) only feed the rendering. *)
Module GameSettings.
Record t : Type := mk {
  sets : Z;                      (* declared [3 | 5] *)
  tiebreak : bool;
  championshipTiebreak : bool;
  goldenPoint : bool
}.
End GameSettings.

(** The two [useState<Team>] hooks of [App]. *)
Record Store : Type := mkStore {
  team1 : Team;
  team2 : Team
}.

(** Object spreads [{ ...t, f: v }]. *)
Definition with_points (v : Points) (t : Team) : Team :=
  mkTeam (name t) (logo t) (players t) (sets t) (games t) v
         (tiebreakPoints t) (isServing t).

Definition with_games (v : Z) (t : Team) : Team :=
  mkTeam (name t) (logo t) (players t) (sets t) v (points t)
         (tiebreakPoints t) (isServing t).

Definition with_sets (v : Z) (t : Team) : Team :=
  mkTeam (name t) (logo t) (players t) v (games t) (points t)
         (tiebreakPoints t) (isServing t).

Definition with_tiebreakPoints (v : Z) (t : Team) : Team :=
  mkTeam (name t) (logo t) (players t) (sets t) (games t) (points t)
         (Some v) (isServing t).

Definition with_isServing (v : bool) (t : Team) : Team :=
  mkTeam (name t) (logo t) (players t) (sets t) (games t) (points t)
         (tiebreakPoints t) (Some v).

(** [t => ({ ...t, isServing: !t.isServing })] *)
Definition flipServing (t : Team) : Team :=
  with_isServing (Js.not (isServing t)) t.

(** ** Queued state updates *)

Definition Cmd : Type := Store -> Store.

Definition skip : Cmd := fun st => st.

Definition seq (c1 c2 : Cmd) : Cmd := fun st => c2 (c1 st).

Declare Scope cmd_scope.
Delimit Scope cmd_scope with cmd.
Bind Scope cmd_scope with Cmd.
Notation "c1 ;; c2" := (seq c1 c2)
  (at level 61, right associativity) : cmd_scope.

Definition setTeam1 (f : Team -> Team) : Cmd :=
  fun st => mkStore (f (team1 st)) (team2 st).

Definition setTeam2 (f : Team -> Team) : Cmd :=
  fun st => mkStore (team1 st) (f (team2 st)).

(** ** [addPoint] *)

Section AddPoint.

Variable settings : GameSettings.t.
(** The values captured by the render that created the handler. *)
Variables team1_c team2_c : Team.
(** The selector; the type says ['team1' | 'team2'], the code compares it
    with ['team1'] only. *)
Variable team : string.

Let is1 : bool := (team =? "team1")%string.

Definition currentTeam : Team := if is1 then team1_c else team2_c.
Definition otherTeam : Team := if is1 then team2_c else team1_c.
Definition setCurrentTeam : (Team -> Team) -> Cmd :=
  if is1 then setTeam1 else setTeam2.
Definition setOtherTeam : (Team -> Team) -> Cmd :=
  if is1 then setTeam2 else setTeam1.

(** [currentTeam.sets >= Math.ceil(settings.sets / 2)] *)
Definition matchOverGuard : bool :=
  Js.ceil_half (GameSettings.sets settings) <=? sets currentTeam.

(** The two "Win game" branches: the opponent's points go to ['0'] and both
    serving flags are flipped. *)
Definition winGameUpdates : Cmd :=
  (setOtherTeam (with_points P0) ;;
   setCurrentTeam flipServing ;;
   setOtherTeam flipServing)%cmd.

(** "Regular point scoring": the values of [newPoints] and [newGames] after
    the [if] chain, and the updates it queued. *)
Definition regularPointScoring : Points * Z * Cmd :=
  match points currentTeam with
  | P0 => (P15, games currentTeam, skip)
  | P15 => (P30, games currentTeam, skip)
  | P30 => (P40, games currentTeam, skip)
  | P40 =>
      match points otherTeam with
      | Ad => (P40, games currentTeam, setOtherTeam (with_points P40))
      | P40 => (Ad, games currentTeam, skip)
      | _ => (P0, games currentTeam + 1, winGameUpdates)
      end
  | Ad => (P0, games currentTeam + 1, winGameUpdates)
  end.

(** The condition of "Check for set win", on the local [newGames]. *)
Definition setWinCondition (newGames : Z) : bool :=
  (6 <=? newGames) &&
  ((games otherTeam + 2 <=? newGames) ||
   ((newGames =? 7) && (games otherTeam =? 5))).

(** "Check for set win": the locals after the block and its update. *)
Definition checkSetWin (newPoints : Points) (newGames newSets : Z)
  : Points * Z * Z * Cmd :=
  if setWinCondition newGames
  then (P0, 0, newSets + 1,
        setOtherTeam (fun t => with_points P0 (with_games 0 t)))
  else (newPoints, newGames, newSets, skip).

Definition addPoint : Cmd :=
  if matchOverGuard then skip
  else
    let '(newPoints, newGames, scored) := regularPointScoring in
    let '(newPoints, newGames, newSets, setWon) :=
      checkSetWin newPoints newGames (sets currentTeam) in
    (scored ;;
     setWon ;;
     setCurrentTeam
       (fun t => with_sets newSets (with_games newGames (with_points newPoints t))))%cmd.

End AddPoint.

(** ** [removePoint] *)

Definition removePoint (team : string) : Cmd :=
  let setTeam := if (team =? "team1")%string then setTeam1 else setTeam2 in
  setTeam (fun t =>
    let newPoints :=
      match points t with
      | P15 => P0
      | P30 => P15
      | P40 => P30
      | Ad => P40
      | P0 => points t
      end in
    with_points newPoints t).

(** ** [handleGesture]

    Created with an empty dependency list, so it keeps calling the handlers
    of the render it was created in. *)
Definition handleGesture (settings : GameSettings.t) (team1_c team2_c : Team)
    (fingers : Z) : Cmd :=
  if fingers =? 1 then addPoint settings team1_c team2_c "team1"
  else if fingers =? 2 then addPoint settings team1_c team2_c "team2"
  else if fingers =? 3 then removePoint "team1"
  else if fingers =? 4 then removePoint "team2"
  else if fingers =? 5 then (setTeam1 flipServing ;; setTeam2 flipServing)%cmd
  else skip.

(** ** The "Switch Server" button *)
Definition switchServerClick (team1_c : Team) : Cmd :=
  let newServing := Js.not (isServing team1_c) in
  (setTeam1 (with_isServing newServing) ;;
   setTeam2 (with_isServing (negb newServing)))%cmd.

(** ** [handleReset] ([src/components/Settings.tsx]) *)
Definition handleReset : Cmd :=
  (setTeam1 (fun t =>
     with_isServing true
       (with_tiebreakPoints 0 (with_points P0 (with_games 0 (with_sets 0 t))))) ;;
   setTeam2 (fun t =>
     with_isServing false
       (with_tiebreakPoints 0 (with_points P0 (with_games 0 (with_sets 0 t))))))%cmd.

(** ** The operations as the interface names them

    A click on "Add Point" runs the [addPoint] of the current render, whose
    captured teams are the current contents of the two hooks. *)

Inductive TeamId : Type := A | B.

Definition selector (t : TeamId) : string :=
  match t with
  | A => "team1"
  | B => "team2"
  end.

Definition opponent (t : TeamId) : TeamId :=
  match t with
  | A => B
  | B => A
  end.

Definition teamOf (t : TeamId) (st : Store) : Team :=
  match t with
  | A => team1 st
  | B => team2 st
  end.

Definition awardPoint (settings : GameSettings.t) (t : TeamId) (st : Store) : Store :=
  addPoint settings (team1 st) (team2 st) (selector t) st.

Definition revertPoint (t : TeamId) (st : Store) : Store :=
  removePoint (selector t) st.

Definition resetMatch (st : Store) : Store := handleReset st.

(** The button. *)
Definition switchServer (st : Store) : Store :=
  switchServerClick (team1 st) st.

(** The five-finger gesture; its own branch reads no captured value. *)
Definition gestureSwitchServer (settings : GameSettings.t) (st : Store) : Store :=
  handleGesture settings (team1 st) (team2 st) 5 st.

(** The guard of [addPoint], for the team [t]. *)
Definition matchOverFor (settings : GameSettings.t) (t : TeamId) (st : Store) : bool :=
  matchOverGuard settings (team1 st) (team2 st) (selector t).

(** The set-win test of [addPoint] on the awarded team's own game count,
    which is what the test sees when the point does not win a game. *)
Definition setPending (t : TeamId) (st : Store) : bool :=
  setWinCondition (team1 st) (team2 st) (selector t) (games (teamOf t st)).

(** The point takes one of the two "Win game" branches. *)
Definition winsGame (settings : GameSettings.t) (t : TeamId) (st : Store) : bool :=
  negb (matchOverFor settings t st) &&
  match points (teamOf t st), points (teamOf (opponent t) st) with
  | Ad, _ => true
  | P40, (P0 | P15 | P30) => true
  | _, _ => false
  end.

(** Initial values of the hooks in [App]. *)
Definition initialTeam1 : Team :=
  mkTeam "Team 1" None ["Player 1"; "Player 2"]%string 0 0 P0 (Some 0) (Some true).

Definition initialTeam2 : Team :=
  mkTeam "Team 2" None ["Player 3"; "Player 4"]%string 0 0 P0 (Some 0) (Some false).

Definition initialStore : Store := mkStore initialTeam1 initialTeam2.

Definition initialSettings : GameSettings.t :=
  GameSettings.mk 3 true true false.

(** A run of "Add Point" clicks. *)
Fixpoint awardPoints (settings : GameSettings.t) (ts : list TeamId) (st : Store) : Store :=
  match ts with
  | [] => st
  | t :: ts' => awardPoints settings ts' (awardPoint settings t st)
  end.

(** ** Boards, predicates and tactics used by the properties *)

Ltac unfold_ops :=
  unfold winsGame in *;
  unfold awardPoint, revertPoint, resetMatch, switchServer, gestureSwitchServer,
    matchOverFor, setPending, teamOf, opponent, selector in *.

Ltac unfold_handlers :=
  unfold addPoint, removePoint, handleReset, switchServerClick, handleGesture,
    checkSetWin, regularPointScoring, winGameUpdates, setWinCondition,
    matchOverGuard, currentTeam, otherTeam, setCurrentTeam, setOtherTeam,
    seq, skip, setTeam1, setTeam2, flipServing,
    with_points, with_games, with_sets, with_isServing, with_tiebreakPoints in *.

Ltac open_store st :=
  let n1 := fresh "name1" in let l1 := fresh "logo1" in
  let p1 := fresh "players1" in let s1 := fresh "sets1" in
  let g1 := fresh "games1" in let q1 := fresh "points1" in
  let b1 := fresh "tb1" in let v1 := fresh "serving1" in
  let n2 := fresh "name2" in let l2 := fresh "logo2" in
  let p2 := fresh "players2" in let s2 := fresh "sets2" in
  let g2 := fresh "games2" in let q2 := fresh "points2" in
  let b2 := fresh "tb2" in let v2 := fresh "serving2" in
  destruct st as [[n1 l1 p1 s1 g1 q1 b1 v1] [n2 l2 p2 s2 g2 q2 b2 v2]].

(** Splits on the boolean tests left in the goal, keeping their meaning. *)
Ltac split_tests :=
  repeat match goal with
    | |- context [if ?b then _ else _] =>
        let E := fresh "E" in destruct b eqn:E
    | H : context [if ?b then _ else _] |- _ =>
        let E := fresh "E" in destruct b eqn:E
    end.

Ltac bool_to_Z :=
  repeat match goal with
    | H : _ && _ = true |- _ => apply andb_true_iff in H; destruct H
    | H : _ || _ = true |- _ => apply orb_true_iff in H
    | H : _ && _ = false |- _ => apply andb_false_iff in H
    | H : _ || _ = false |- _ => apply orb_false_iff in H; destruct H
    | H : negb _ = true |- _ => apply negb_true_iff in H
    | H : negb _ = false |- _ => apply negb_false_iff in H
    | H : (_ <=? _) = true |- _ => apply Z.leb_le in H
    | H : (_ <=? _) = false |- _ => apply Z.leb_gt in H
    | H : (_ =? _) = true |- _ => apply Z.eqb_eq in H
    | H : (_ =? _) = false |- _ => apply Z.eqb_neq in H
    end.

(** A best-of-3 board on which team 2 has taken its second set. *)
Definition opponentWonStore : Store :=
  mkStore initialTeam1 (with_sets 2 initialTeam2).

(** The store in which team [t] carries [f] applied to its record. *)
Definition updateTeam (t : TeamId) (f : Team -> Team) (st : Store) : Store :=
  match t with
  | A => mkStore (f (team1 st)) (team2 st)
  | B => mkStore (team1 st) (f (team2 st))
  end.

(** 40-40 at the start of a match. *)
Definition deuceStore : Store :=
  mkStore (with_points P40 initialTeam1) (with_points P40 initialTeam2).

(** The same board with team 1 at Advantage. *)
Definition advantageAStore : Store :=
  mkStore (with_points Ad initialTeam1) (with_points P40 initialTeam2).

(** Best of 3 with the golden-point box ticked. *)
Definition goldenSettings : GameSettings.t :=
  GameSettings.mk 3 true true true.

(** What a game won by [t] on this point would look like. *)
Definition pointWinsGame (settings : GameSettings.t) (t : TeamId) (st : Store) : Prop :=
  let st' := awardPoint settings t st in
  games (teamOf t st') = games (teamOf t st) + 1 /\
  points (teamOf t st') = P0 /\
  points (teamOf (opponent t) st') = P0.

(** The local [newGames] when the set test is reached. *)
Definition newGamesOf (t : TeamId) (st : Store) : Z :=
  snd (fst (regularPointScoring (team1 st) (team2 st) (selector t))).

(** Team 1 serves for the set at 6-5 and 40-0. *)
Definition setPointStore : Store :=
  mkStore (with_points P40 (with_games 6 initialTeam1))
          (with_games 5 initialTeam2).

(** The point for [t] on board [st] takes the set, with [t] at [g] games
    (the game just won included) and the opponent at [o]. *)
Definition winsSetAt (settings : GameSettings.t) (t : TeamId) (st : Store)
    (g o : Z) : Prop :=
  sets (teamOf t (awardPoint settings t st)) = sets (teamOf t st) + 1 /\
  newGamesOf t st = g /\
  games (teamOf (opponent t) st) = o.

(** Four straight points, [n] times over. *)
Definition gamesFor (t : TeamId) (n : nat) : list TeamId :=
  List.concat (List.repeat [t; t; t; t] n).

(** From 5-5 team 1 wins a game (6-5) and leads 40-0. *)
Definition runTo_6_5_setPoint : list TeamId :=
  gamesFor A 5 ++ gamesFor B 5 ++ gamesFor A 1 ++ [A; A; A].

(** 6-6, then team 1 wins a game (7-6, the set goes on) and leads 40-0. *)
Definition runTo_7_6_setPoint : list TeamId :=
  gamesFor A 5 ++ gamesFor B 5 ++ gamesFor A 1 ++ gamesFor B 1 ++
  gamesFor A 1 ++ [A; A; A].

(** Every field of a team but its points. *)
Definition sameButPoints (t t' : Team) : Prop :=
  name t' = name t /\ logo t' = logo t /\ players t' = players t /\
  sets t' = sets t /\ games t' = games t /\
  tiebreakPoints t' = tiebreakPoints t /\ isServing t' = isServing t.

(** Team 1 at Advantage, two games all. *)
Definition gamePointStore : Store :=
  mkStore (with_points Ad (with_games 2 initialTeam1))
          (with_points P40 (with_games 2 initialTeam2)).

(** Either team holds the winning number of sets. *)
Definition isMatchComplete (settings : GameSettings.t) (st : Store) : bool :=
  matchOverFor settings A st || matchOverFor settings B st.

(** Team 2 serves. *)
Definition team2ServingStore : Store :=
  mkStore (with_isServing false initialTeam1) (with_isServing true initialTeam2).

(** The flag as the rendering tests it ([team.isServing && ...]). *)
Definition serves (t : Team) : bool :=
  match isServing t with
  | Some true => true
  | _ => false
  end.

(** Exactly one of the two teams is shown as serving. *)
Definition exactlyOneServing (st : Store) : bool :=
  xorb (serves (team1 st)) (serves (team2 st)).

(** Nobody serves (a board as it can be loaded from the store). *)
Definition nobodyServingStore : Store :=
  mkStore (with_isServing false initialTeam1) initialTeam2.

(** The boards reached from the start by the buttons and the serve gesture. *)
Inductive Played (settings : GameSettings.t) : Store -> Prop :=
| played_start : Played settings initialStore
| played_award t st :
    Played settings st -> Played settings (awardPoint settings t st)
| played_revert t st :
    Played settings st -> Played settings (revertPoint t st)
| played_switch st :
    Played settings st -> Played settings (switchServer st)
| played_gesture_switch st :
    Played settings st -> Played settings (gestureSwitchServer settings st)
| played_reset st :
    Played settings st -> Played settings (resetMatch st).

(** No team stands at a game count that already passes the set test. *)
Definition noSetPending (st : Store) : Prop :=
  setPending A st = false /\ setPending B st = false.

(** ** Further predicates on boards *)

(** The fields of a team that carry no score: name, logo, players and
    tiebreak points. *)
Definition sameIdentity (t t' : Team) : Prop :=
  name t' = name t /\ logo t' = logo t /\ players t' = players t /\
  tiebreakPoints t' = tiebreakPoints t.

(** Sets between 0 and the win threshold, games not negative, for both
    teams. *)
Definition scoresInRange (settings : GameSettings.t) (st : Store) : Prop :=
  let threshold := Js.ceil_half (GameSettings.sets settings) in
  (0 <= sets (team1 st) <= threshold /\ 0 <= games (team1 st)) /\
  (0 <= sets (team2 st) <= threshold /\ 0 <= games (team2 st)).

(** The score fields of a team. *)
Definition scoreOf (t : Team) : Points * Z * Z := (points t, games t, sets t).

(** The gesture that scores for [t]: one finger for team 1, two for team 2. *)
Definition pointGesture (t : TeamId) : Z :=
  match t with
  | A => 1
  | B => 2
  end.

(** ** The match clock ([formatTime] of the [Scoreboard] component) *)

(** [n.toString()] for an integer. *)
Definition toString (n : Z) : string :=
  DecimalString.NilZero.string_of_int (Z.to_int n).

Fixpoint zeros (n : nat) : string :=
  match n with
  | O => EmptyString
  | S k => String "0" (zeros k)
  end.

(** [s.padStart(targetLength, '0')]: pads on the left, never cuts. *)
Definition padStart0 (targetLength : nat) (s : string) : string :=
  (zeros (targetLength - String.length s) ++ s)%string.

(** [Math.floor(x / y)] is [/] on [Z]; [%] keeps the sign of the dividend
    and is [Z.rem]. *)
Definition formatTime (time : Z) : string :=
  let hours := time / 3600 in
  let minutes := Z.rem time 3600 / 60 in
  let seconds := Z.rem time 60 in
  (padStart0 2 (toString hours) ++ ":" ++
   padStart0 2 (toString minutes) ++ ":" ++
   padStart0 2 (toString seconds))%string.

(** Reading a clock of the shape [dd:dd:dd] back into seconds. *)
Definition digitValue (c : ascii) : option Z :=
  let n := Z.of_nat (nat_of_ascii c) in
  if (48 <=? n) && (n <=? 57) then Some (n - 48) else None.

Definition twoDigits (a b : ascii) : option Z :=
  match digitValue a, digitValue b with
  | Some x, Some y => Some (10 * x + y)
  | _, _ => None
  end.

Definition readClock (s : string) : option Z :=
  match s with
  | String h1 (String h0 (String c1 (String m1 (String m0
      (String c2 (String s1 (String s0 EmptyString))))))) =>
      if (Ascii.eqb c1 ":" && Ascii.eqb c2 ":")%bool then
        match twoDigits h1 h0, twoDigits m1 m0, twoDigits s1 s0 with
        | Some h, Some m, Some sec => Some (h * 3600 + m * 60 + sec)
        | _, _, _ => None
        end
      else None
  | _ => None
  end.

(** ** Colours ([rgbToHex], [src/utils/colorUtils.ts] and the media helpers) *)

(** [x.toString(16)] for an integer. *)
Definition toString16 (x : Z) : string :=
  HexadecimalString.NilZero.string_of_int (Z.to_hex_int x).

Definition rgbToHex (r g b : Z) : string :=
  ("#" ++ String.concat ""
     (map (fun x =>
             let hex := toString16 x in
             if (String.length hex =? 1)%nat then ("0" ++ hex)%string else hex)
          [r; g; b]))%string.

(** Reading [#rrggbb] back into its three channels. *)
Definition hexValue (c : ascii) : option Z :=
  let n := Z.of_nat (nat_of_ascii c) in
  if (48 <=? n) && (n <=? 57) then Some (n - 48)
  else if (97 <=? n) && (n <=? 102) then Some (n - 87)
  else None.

Definition twoHex (a b : ascii) : option Z :=
  match hexValue a, hexValue b with
  | Some x, Some y => Some (16 * x + y)
  | _, _ => None
  end.

Definition readHexColour (s : string) : option (Z * Z * Z) :=
  match s with
  | String h (String r1 (String r0 (String g1 (String g0
      (String b1 (String b0 EmptyString)))))) =>
      if Ascii.eqb h "#" then
        match twoHex r1 r0, twoHex g1 g0, twoHex b1 b0 with
        | Some r, Some g, Some b => Some (r, g, b)
        | _, _, _ => None
        end
      else None
  | _ => None
  end.

(** ** Image files ([validateImageFile], [ImageUpload], [Settings]) *)

(** The two fields of a [File] the checks read. *)
Record File : Type := mkFile {
  size : Z;
  type_ : string                   (* [file.type] *)
}.

Definition tooLargeMessage : string :=
  "Image file is too large. Please upload an image smaller than 2MB".

Definition notImageMessage : string :=
  "Please upload an image file (PNG, JPG, SVG)".

(** Returns the error message, [None] for [null]. *)
Definition validateImageFile (file : File) : option string :=
  if 2 * 1024 * 1024 <? size file then Some tooLargeMessage
  else if negb (String.prefix "image/" (type_ file)) then Some notImageMessage
  else None.

(** The checks of [handleFileChange] in [ImageUpload] before the file is
    read: the message handed to [setError], [None] when reading starts. *)
Definition handleFileChange_check (file : File) : option string :=
  if size file =? 0 then Some "Selected file is empty"%string
  else validateImageFile file.

(** The checks of [handleImageUpload] in [Settings] before the file is read:
    the message handed to [alert]. *)
Definition handleImageUpload_check (file : File) : option string :=
  if negb (String.prefix "image/" (type_ file))
  then Some "Please upload an image file (PNG, JPG, etc.)"%string
  else if 2 * 1024 * 1024 <? size file
  then Some "Image file is too large. Please upload an image smaller than 2MB."%string
  else None.

(** The decimal digit [d] as a character. *)
Definition digitChar (d : Z) : ascii := ascii_of_nat (48 + Z.to_nat d).

(** The hexadecimal digit [d] as a lower-case character. *)
Definition hexChar (d : Z) : ascii :=
  if d <? 10 then ascii_of_nat (48 + Z.to_nat d)
  else ascii_of_nat (87 + Z.to_nat d).

(** ** Writing the board to the store ([updateScoreboard])

    The request to the store is the one step the component does not decide;
    it is a parameter here, giving the response to the [n]-th request.  The
    handler is followed to the state it leaves behind when it and its
    retries have finished. *)

Module Sync.
(** The hooks [updateScoreboard] writes, the waits it sat through and the
    number of requests it sent. *)
Record t : Type := mk {
  updating : bool;
  error : option string;
  retryCount : Z;
  scoreboardId : option string;
  waits : list Z;                  (* delays of [setTimeout], in order *)
  requests : nat
}.
End Sync.

(** [response.error] set (or the call thrown), or [response.data]. *)
Inductive Response : Type :=
| Rejected
| Stored (id : option string).

Definition failedMessage : string :=
  "Failed to update scoreboard. Please check your connection.".

(** [retries] only ever holds the default 3 and what is left of it, so it
    is a natural number here; [updating_c] and [scoreboardId_c] are the
    values captured by the render. *)
Fixpoint updateScoreboard (server : nat -> Response)
    (updating_c : bool) (scoreboardId_c : option string)
    (retries : nat) (delay : Z) (s : Sync.t) : Sync.t :=
  if updating_c then s
  else
    (* setUpdating(true); setError(null); the request *)
    let response := server (Sync.requests s) in
    let s1 := Sync.mk true None (Sync.retryCount s) (Sync.scoreboardId s)
                (Sync.waits s) (S (Sync.requests s)) in
    match response with
    | Stored data =>
        let newId :=
          match scoreboardId_c, data with
          | None, Some id => Some id
          | _, _ => Sync.scoreboardId s1
          end in
        (* setRetryCount(0); finally setUpdating(false) *)
        Sync.mk false (Sync.error s1) 0 newId (Sync.waits s1) (Sync.requests s1)
    | Rejected =>
        match retries with
        | S retries' =>
            (* setRetryCount(prev => prev + 1); wait; retry *)
            let s2 := Sync.mk (Sync.updating s1) (Sync.error s1)
                        (Sync.retryCount s1 + 1) (Sync.scoreboardId s1)
                        (Sync.waits s1 ++ [delay]) (Sync.requests s1) in
            let s3 := updateScoreboard server updating_c scoreboardId_c
                        retries' (delay * 2) s2 in
            Sync.mk false (Sync.error s3) (Sync.retryCount s3)
              (Sync.scoreboardId s3) (Sync.waits s3) (Sync.requests s3)
        | O =>
            Sync.mk false (Some failedMessage) (Sync.retryCount s1)
              (Sync.scoreboardId s1) (Sync.waits s1) (Sync.requests s1)
        end
    end.

(** The waits of [k] retries in a row: [delay], [2 * delay], ... *)
Fixpoint backoff (delay : Z) (k : nat) : list Z :=
  match k with
  | O => []
  | S k' => delay :: backoff (delay * 2) k'
  end.

Definition totalWait (l : list Z) : Z := fold_right Z.add 0 l.

(** A store that rejects the first two requests and stores the third. *)
Definition flakyServer (n : nat) : Response :=
  match n with
  | 0%nat | 1%nat => Rejected
  | _ => Stored (Some "board-1"%string)
  end.

(** Nothing in flight, nothing sent yet. *)
Definition idleSync : Sync.t := Sync.mk false None 0 None [] 0.

(** ** Boards after a point, written out *)

(** The next step up the ladder from 0, 15 and 30. *)
Definition climb (p : Points) : Points :=
  match p with
  | P0 => P15
  | P15 => P30
  | P30 => P40
  | P40 => P40
  | Ad => Ad
  end.

(** The board after [t] has won a game that does not take the set. *)
Definition gameWonBoard (t : TeamId) (st : Store) : Store :=
  updateTeam t (fun x => with_games (games x + 1) (with_points P0 (flipServing x)))
    (updateTeam (opponent t) (fun x => flipServing (with_points P0 x)) st).

(** The board after [t] has won a game that takes the set. *)
Definition setWonBoard (t : TeamId) (st : Store) : Store :=
  updateTeam t
    (fun x => with_sets (sets x + 1) (with_games 0 (with_points P0 (flipServing x))))
    (updateTeam (opponent t)
       (fun x => with_points P0 (with_games 0 (flipServing (with_points P0 x)))) st).

(** 40-40 with team 1 at 6 games to 4: its game count already passes the
    set test. *)
Definition deuceSetPendingStore : Store :=
  mkStore (with_points P40 (with_games 6 initialTeam1))
          (with_points P40 (with_games 4 initialTeam2)).

(** 40-40 on a best-of-3 board where team 1 holds 2 sets. *)
Definition deuceMatchWonStore : Store :=
  mkStore (with_points P40 (with_sets 2 initialTeam1))
          (with_points P40 initialTeam2).

(** One call of a handler of the [Scoreboard] component or of the reset,
    with whatever teams and settings the handler captured. *)
Inductive ScoreboardStep : Store -> Store -> Prop :=
| step_addPoint settings c1 c2 team st :
    ScoreboardStep st (addPoint settings c1 c2 team st)
| step_removePoint team st :
    ScoreboardStep st (removePoint team st)
| step_gesture settings c1 c2 fingers st :
    ScoreboardStep st (handleGesture settings c1 c2 fingers st)
| step_switchServer c1 st :
    ScoreboardStep st (switchServerClick c1 st)
| step_reset st :
    ScoreboardStep st (handleReset st).

(** Any number of such calls, one after the other. *)
Inductive ScoreboardRun : Store -> Store -> Prop :=
| run_done st : ScoreboardRun st st
| run_step st st' st'' :
    ScoreboardRun st st' -> ScoreboardStep st' st'' -> ScoreboardRun st st''.

(** * Properties *)

(** ** Arithmetic of the win threshold *)

Lemma ceil_half_least (n k : Z) : Js.ceil_half n <= k <-> n <= 2 * k.
Proof.
  unfold Js.ceil_half.
  pose proof (Z.div_mod (n + 1) 2 ltac:(lia)) as E.
  pose proof (Z.mod_pos_bound (n + 1) 2 ltac:(lia)) as B.
  lia.
Qed.

Lemma ceil_half_3 : Js.ceil_half 3 = 2.
Proof. reflexivity. Qed.

Lemma ceil_half_5 : Js.ceil_half 5 = 3.
Proof. reflexivity. Qed.

(** ** The guard of [addPoint] *)

(** Once the awarded team holds the winning number of sets, the click
    changes nothing. *)
Lemma awardPoint_frozen_for_winner settings t st :
  matchOverFor settings t st = true ->
  awardPoint settings t st = st.
Proof.
  unfold awardPoint, matchOverFor, addPoint. intros ->. reflexivity.
Qed.

(** C1 (the guard reads the awarded team's sets only).  On a best-of-3 board
    where team 2 already holds 2 sets, the threshold [ceil(3/2) = 2] is
    reached, yet a point for team 1 is scored: its points go from 0 to 15 and
    the state differs from the input. *)
Theorem awardPoint_after_opponent_won :
  Js.ceil_half (GameSettings.sets initialSettings) <= sets (team2 opponentWonStore) /\
  matchOverFor initialSettings B opponentWonStore = true /\
  points (team1 opponentWonStore) = P0 /\
  points (team1 (awardPoint initialSettings A opponentWonStore)) = P15 /\
  awardPoint initialSettings A opponentWonStore <> opponentWonStore.
Proof.
  split; [vm_compute; discriminate |].
  repeat split.
  vm_compute. discriminate.
Qed.

(** ** Deuce and advantage *)

Lemma awardPoint_from_deuce settings t st :
  points (teamOf t st) = P40 ->
  points (teamOf (opponent t) st) = P40 ->
  matchOverFor settings t st = false ->
  setPending t st = false ->
  awardPoint settings t st = updateTeam t (with_points Ad) st.
Proof.
  open_store st. destruct t; unfold_ops; unfold_handlers; cbn;
    intros -> -> G S; cbn; rewrite G; cbn; rewrite S; reflexivity.
Qed.

Lemma awardPoint_against_advantage settings t st :
  points (teamOf t st) = P40 ->
  points (teamOf (opponent t) st) = Ad ->
  matchOverFor settings t st = false ->
  setPending t st = false ->
  awardPoint settings t st = updateTeam (opponent t) (with_points P40) st.
Proof.
  open_store st. destruct t; unfold_ops; unfold_handlers; cbn;
    intros -> -> G S; cbn; rewrite G; cbn; rewrite S; reflexivity.
Qed.

(** C5, as the code has it.  On a board where team B stands at 40, the
    awarded team has not yet taken the match and holds no already-decided
    set: from A at 40 a point for
    A changes A's points to Advantage and nothing else; from A at Advantage a
    point for B changes A's points back to 40 and nothing else (B stays at 40
    and gains no Advantage).  The result stores differ from the input in that
    one field only, so games, sets and serving flags of both teams are
    untouched. *)
Theorem deuce_advantage_and_back settings st :
  points (team2 st) = P40 ->
  (points (team1 st) = P40 ->
   matchOverFor settings A st = false ->
   setPending A st = false ->
   let st' := awardPoint settings A st in
   st' = mkStore (with_points Ad (team1 st)) (team2 st) /\
   points (team1 st') = Ad /\ points (team2 st') = P40) /\
  (points (team1 st) = Ad ->
   matchOverFor settings B st = false ->
   setPending B st = false ->
   let st' := awardPoint settings B st in
   st' = mkStore (with_points P40 (team1 st)) (team2 st) /\
   points (team1 st') = P40 /\ points (team2 st') = P40).
Proof.
  intros H2. split; intros H1 G S st'; subst st'.
  - rewrite (awardPoint_from_deuce settings A st H1 H2 G S).
    cbn. auto.
  - rewrite (awardPoint_against_advantage settings B st H2 H1 G S).
    cbn. auto.
Qed.

Lemma deuce_advantage_and_back_witness :
  awardPoint initialSettings A deuceStore = advantageAStore /\
  awardPoint initialSettings B advantageAStore = deuceStore.
Proof.
  split.
  - apply (proj1 (deuce_advantage_and_back initialSettings deuceStore eq_refl));
      reflexivity.
  - apply (proj2 (deuce_advantage_and_back initialSettings advantageAStore eq_refl));
      reflexivity.
Defined.

(** C5 fails on the code as stated, for every 40-40 board: at 40-40 with
    team 1 at 6 games to 4 a point for team 1 takes the set (points 0, games
    0, one more set, the opponent reset) and gives no Advantage; and at 40-40
    with team 1 holding the 2 sets of a best-of-3 match the point is not
    scored, so team 1 stays at 40. *)
Lemma deuce_point_without_advantage :
  (points (team1 deuceSetPendingStore) = P40 /\
   points (team2 deuceSetPendingStore) = P40 /\
   points (team1 (awardPoint initialSettings A deuceSetPendingStore)) <> Ad /\
   points (team2 (awardPoint initialSettings A deuceSetPendingStore)) <> P40 /\
   sets (team1 (awardPoint initialSettings A deuceSetPendingStore)) =
     sets (team1 deuceSetPendingStore) + 1 /\
   games (team1 (awardPoint initialSettings A deuceSetPendingStore)) = 0 /\
   games (team2 (awardPoint initialSettings A deuceSetPendingStore)) = 0) /\
  (points (team1 deuceMatchWonStore) = P40 /\
   points (team2 deuceMatchWonStore) = P40 /\
   awardPoint initialSettings A deuceMatchWonStore = deuceMatchWonStore /\
   points (team1 (awardPoint initialSettings A deuceMatchWonStore)) <> Ad).
Proof.
  split.
  - repeat split; vm_compute; discriminate.
  - repeat split; vm_compute; discriminate.
Qed.

(** ** Golden point *)

(** C2 fails on the code: with the golden-point rule switched on, a point for
    team A at 40-40 still gives Advantage and leaves the game count alone. *)
Lemma golden_point_deuce_still_advantage :
  GameSettings.goldenPoint goldenSettings = true /\
  points (team1 deuceStore) = P40 /\
  points (team2 deuceStore) = P40 /\
  points (team1 (awardPoint goldenSettings A deuceStore)) = Ad /\
  games (team1 (awardPoint goldenSettings A deuceStore)) = games (team1 deuceStore) /\
  ~ pointWinsGame goldenSettings A deuceStore.
Proof.
  repeat split.
  unfold pointWinsGame. vm_compute. intros [H _]. discriminate H.
Qed.

(** [addPoint] reads [settings.sets] and no other setting. *)
Lemma addPoint_reads_sets_only settings settings' c1 c2 team st :
  GameSettings.sets settings = GameSettings.sets settings' ->
  addPoint settings c1 c2 team st = addPoint settings' c1 c2 team st.
Proof.
  intros E. unfold addPoint, matchOverGuard. rewrite E. reflexivity.
Qed.

(** C2, as the code has it.  At 40-40, whatever the golden-point setting, a
    point for [t] (who has not taken the match and holds no already-decided
    set) gives [t] Advantage, leaves the opponent at 40 and changes nothing
    else: no game is won. *)
Theorem deuce_point_gives_advantage_under_any_rule settings t st :
  points (teamOf t st) = P40 ->
  points (teamOf (opponent t) st) = P40 ->
  matchOverFor settings t st = false ->
  setPending t st = false ->
  forall golden : bool,
    let settings' :=
      GameSettings.mk (GameSettings.sets settings) (GameSettings.tiebreak settings)
        (GameSettings.championshipTiebreak settings) golden in
    let st' := awardPoint settings' t st in
    st' = updateTeam t (with_points Ad) st /\
    points (teamOf t st') = Ad /\
    points (teamOf (opponent t) st') = P40 /\
    games (teamOf t st') = games (teamOf t st).
Proof.
  intros H1 H2 G S golden settings' st'.
  assert (E : st' = updateTeam t (with_points Ad) st).
  { subst st'. unfold awardPoint.
    rewrite (addPoint_reads_sets_only settings' settings) by reflexivity.
    exact (awardPoint_from_deuce settings t st H1 H2 G S). }
  rewrite E. split; [reflexivity |].
  destruct t; cbn in *; auto.
Qed.

Lemma deuce_point_gives_advantage_under_any_rule_witness :
  awardPoint goldenSettings A deuceStore = advantageAStore.
Proof.
  apply (deuce_point_gives_advantage_under_any_rule
           initialSettings A deuceStore eq_refl eq_refl eq_refl eq_refl true).
Defined.

(** ** Winning a game, winning a set *)

Lemma winsGame_newGames settings t st :
  winsGame settings t st = true ->
  newGamesOf t st = games (teamOf t st) + 1.
Proof.
  open_store st. unfold newGamesOf.
  destruct t; unfold_ops; unfold_handlers; cbn; intros H;
    apply andb_true_iff in H; destruct H as [_ H];
    destruct points1, points2; cbn in *; congruence.
Qed.

(** C3.  When the point wins a game for [t], taking [t] to [newGames] games:
    [t]'s sets go up by one exactly when [newGames >= 6] and ([newGames] is
    at least the opponent's games plus 2, or the games stand at 7 to 5); in
    that case both teams' games and points are 0 afterwards; otherwise [t]
    keeps its sets and holds [newGames] games. *)
Theorem game_win_decides_set settings t st :
  winsGame settings t st = true ->
  let newGames := games (teamOf t st) + 1 in
  let o := opponent t in
  let st' := awardPoint settings t st in
  (sets (teamOf t st') = sets (teamOf t st) + 1 <->
   6 <= newGames /\
   (games (teamOf o st) + 2 <= newGames \/
    (newGames = 7 /\ games (teamOf o st) = 5))) /\
  (sets (teamOf t st') = sets (teamOf t st) + 1 ->
   games (teamOf t st') = 0 /\ games (teamOf o st') = 0 /\
   points (teamOf t st') = P0 /\ points (teamOf o st') = P0) /\
  (sets (teamOf t st') <> sets (teamOf t st) + 1 ->
   sets (teamOf t st') = sets (teamOf t st) /\
   games (teamOf t st') = newGames /\
   games (teamOf o st') = games (teamOf o st) /\
   points (teamOf t st') = P0 /\ points (teamOf o st') = P0) /\
  sets (teamOf o st') = sets (teamOf o st).
Proof.
  open_store st.
  destruct t; unfold_ops; unfold_handlers; cbn; intros H;
    apply andb_true_iff in H; destruct H as [G H];
    apply negb_true_iff in G; rewrite G;
    destruct points1, points2; try discriminate H; cbn;
    split_tests; cbn; bool_to_Z;
    (repeat split; intros; try lia; try reflexivity).
Qed.

Lemma game_win_decides_set_witness :
  sets (team1 (awardPoint initialSettings A setPointStore)) = 1 /\
  games (team1 (awardPoint initialSettings A setPointStore)) = 0 /\
  games (team2 (awardPoint initialSettings A setPointStore)) = 0.
Proof.
  pose proof (game_win_decides_set initialSettings A setPointStore eq_refl)
    as (Hiff & Hwon & _).
  assert (W : sets (team1 (awardPoint initialSettings A setPointStore)) = 1).
  { apply Hiff. cbn. lia. }
  destruct (Hwon W) as (H1 & H2 & _).
  auto.
Defined.

(** ** The score at which a set falls *)

(** A set only ever falls with a lead of two games. *)
Lemma set_win_needs_two_clear_games settings t st g o :
  winsSetAt settings t st g o -> 6 <= g /\ o + 2 <= g.
Proof.
  unfold winsSetAt, newGamesOf. open_store st.
  destruct t; unfold_ops; unfold_handlers; cbn;
    intros (S & <- & <-);
    revert S; split_tests; cbn;
    destruct points1, points2; cbn in *;
    split_tests; cbn; bool_to_Z; intros; lia.
Qed.

(** C4 fails on the code: no run of points from the initial board, under any
    setting, ends with a set taken at 7 games to 6. *)
Lemma no_set_won_at_7_6 :
  ~ exists settings ts t,
      winsSetAt settings t (awardPoints settings ts initialStore) 7 6.
Proof.
  intros (settings & ts & t & W).
  apply set_win_needs_two_clear_games in W. lia.
Qed.

(** C4, as the code has it.  From the initial board there are runs of points
    after which a set is taken at 7 games to 5, and at 8 games to 6 after the
    games stood at 7-6 with the set still open; and whenever a point takes a
    set, the winner has at least 6 games and at least two more than the
    opponent. *)
Theorem set_falls_at_7_5_or_two_clear :
  (exists ts t,
     winsSetAt initialSettings t (awardPoints initialSettings ts initialStore) 7 5) /\
  (exists ts t,
     let st := awardPoints initialSettings ts initialStore in
     games (teamOf t st) = 7 /\ games (teamOf (opponent t) st) = 6 /\
     sets (teamOf t st) = 0 /\ sets (teamOf (opponent t) st) = 0 /\
     winsSetAt initialSettings t st 8 6) /\
  (forall settings t st g o,
     winsSetAt settings t st g o -> 6 <= g /\ o + 2 <= g).
Proof.
  split; [| split].
  - exists runTo_6_5_setPoint, A. vm_compute. auto.
  - exists runTo_7_6_setPoint, A. vm_compute. auto 10.
  - exact set_win_needs_two_clear_games.
Qed.

Lemma set_falls_at_7_5_or_two_clear_witness :
  winsSetAt initialSettings A setPointStore 7 5 /\ 6 <= 7 /\ 5 + 2 <= 7.
Proof.
  assert (W : winsSetAt initialSettings A setPointStore 7 5).
  { vm_compute. auto. }
  split; [exact W |].
  destruct set_falls_at_7_5_or_two_clear as (_ & _ & H).
  exact (H initialSettings A setPointStore 7 5 W).
Defined.

(** ** Taking a point back *)

(** C6.  [revertPoint] for [t] moves [t]'s points one step down the ladder
    Advantage, 40, 30, 15, 0 and keeps 0; every other field of [t] and the
    whole record of the opponent stay as they were.  After a point that won a
    game for [t], [revertPoint] changes nothing, and [t]'s game count is not
    the one it had before that point. *)
Theorem revertPoint_is_point_level_only settings t st :
  let st' := revertPoint t st in
  points (teamOf t st') =
    match points (teamOf t st) with
    | Ad => P40
    | P40 => P30
    | P30 => P15
    | P15 => P0
    | P0 => P0
    end /\
  sameButPoints (teamOf t st) (teamOf t st') /\
  teamOf (opponent t) st' = teamOf (opponent t) st /\
  (points (teamOf t st) = P0 -> st' = st) /\
  (winsGame settings t st = true ->
   let won := awardPoint settings t st in
   revertPoint t won = won /\
   games (teamOf t (revertPoint t won)) <> games (teamOf t st)).
Proof.
  open_store st. unfold sameButPoints.
  destruct t; unfold_ops; unfold_handlers; cbn.
  all: repeat split; try (destruct points1, points2; reflexivity).
  all: try (intros ->; reflexivity).
  all: match goal with
       | W : _ && _ = true |- _ =>
           apply andb_true_iff in W; destruct W as [G W];
           apply negb_true_iff in G; rewrite G;
           destruct points1, points2; try discriminate W; cbn;
           split_tests; cbn; bool_to_Z; (reflexivity || lia)
       end.
Qed.

Lemma revertPoint_is_point_level_only_witness :
  games (team1 gamePointStore) = 2 /\
  games (team1 (awardPoint initialSettings A gamePointStore)) = 3 /\
  revertPoint A (awardPoint initialSettings A gamePointStore) =
    awardPoint initialSettings A gamePointStore /\
  revertPoint A initialStore = initialStore.
Proof.
  destruct (revertPoint_is_point_level_only initialSettings A gamePointStore)
    as (_ & _ & _ & _ & H).
  destruct (H eq_refl) as [Hnoop _].
  destruct (revertPoint_is_point_level_only initialSettings A initialStore)
    as (_ & _ & _ & H0 & _).
  split; [reflexivity |].
  split; [reflexivity |].
  split; [exact Hnoop | exact (H0 eq_refl)].
Defined.

(** C10.  While the match is open, the awarded team stands at 0, 15 or 30 and
    has fewer than 6 games, taking the point back restores the board exactly. *)
Theorem revertPoint_undoes_awardPoint settings t st :
  isMatchComplete settings st = false ->
  (points (teamOf t st) = P0 \/ points (teamOf t st) = P15 \/
   points (teamOf t st) = P30) ->
  games (teamOf t st) < 6 ->
  revertPoint t (awardPoint settings t st) = st.
Proof.
  unfold isMatchComplete. intros C P G.
  apply orb_false_iff in C. destruct C as [CA CB].
  open_store st.
  destruct t; unfold_ops; unfold_handlers; cbn in *.
  - rewrite CA. destruct P as [-> | [-> | ->]]; cbn;
      split_tests; bool_to_Z; try lia; reflexivity.
  - rewrite CB. destruct P as [-> | [-> | ->]]; cbn;
      split_tests; bool_to_Z; try lia; reflexivity.
Qed.

Lemma revertPoint_undoes_awardPoint_witness :
  revertPoint A (awardPoint initialSettings A initialStore) = initialStore.
Proof.
  apply (revertPoint_undoes_awardPoint initialSettings A initialStore).
  - reflexivity.
  - left. reflexivity.
  - reflexivity.
Defined.

(** ** Resetting the scores *)

(** C7 fails on the code: with team 2 serving, a reset hands the serve to
    team 1. *)
Lemma resetMatch_reassigns_server :
  isServing (team1 team2ServingStore) = Some false /\
  isServing (team2 team2ServingStore) = Some true /\
  isServing (team1 (resetMatch team2ServingStore)) = Some true /\
  isServing (team2 (resetMatch team2ServingStore)) = Some false /\
  isServing (team1 (resetMatch team2ServingStore)) <> isServing (team1 team2ServingStore) /\
  isServing (team2 (resetMatch team2ServingStore)) <> isServing (team2 team2ServingStore).
Proof.
  repeat split; cbn; discriminate.
Qed.

(** C7, as the code has it.  A reset puts both teams at points 0, games 0,
    sets 0 and tiebreak points 0, makes team 1 the server and team 2 the
    receiver whatever the flags were, and keeps names, logos and players. *)
Theorem resetMatch_restores_start st :
  let st' := resetMatch st in
  points (team1 st') = P0 /\ games (team1 st') = 0 /\ sets (team1 st') = 0 /\
  points (team2 st') = P0 /\ games (team2 st') = 0 /\ sets (team2 st') = 0 /\
  tiebreakPoints (team1 st') = Some 0 /\ tiebreakPoints (team2 st') = Some 0 /\
  isServing (team1 st') = Some true /\ isServing (team2 st') = Some false /\
  name (team1 st') = name (team1 st) /\ logo (team1 st') = logo (team1 st) /\
  players (team1 st') = players (team1 st) /\
  name (team2 st') = name (team2 st) /\ logo (team2 st') = logo (team2 st) /\
  players (team2 st') = players (team2 st).
Proof.
  cbn. repeat split.
Qed.

(** ** Switching the server *)

(** The button always leaves exactly one server. *)
Lemma switchServer_button_exactly_one st :
  exactlyOneServing (switchServer st) = true.
Proof.
  unfold exactlyOneServing, serves. cbn.
  destruct (Js.not (isServing (team1 st))); reflexivity.
Qed.

(** The gesture negates each flag on its own, so it keeps the two flags equal
    when they were equal. *)
Lemma gestureSwitchServer_flips_each settings st :
  isServing (team1 (gestureSwitchServer settings st)) =
    Some (Js.not (isServing (team1 st))) /\
  isServing (team2 (gestureSwitchServer settings st)) =
    Some (Js.not (isServing (team2 st))).
Proof.
  split; reflexivity.
Qed.

(** C8 (gesture path).  From a board with both flags false, the five-finger
    switch leaves both flags true, while the button on the same board leaves
    exactly one server. *)
Theorem gesture_switch_from_equal_flags :
  isServing (team1 nobodyServingStore) = Some false /\
  isServing (team2 nobodyServingStore) = Some false /\
  isServing (team1 (gestureSwitchServer initialSettings nobodyServingStore)) = Some true /\
  isServing (team2 (gestureSwitchServer initialSettings nobodyServingStore)) = Some true /\
  exactlyOneServing (gestureSwitchServer initialSettings nobodyServingStore) = false /\
  exactlyOneServing (switchServer nobodyServingStore) = true.
Proof.
  repeat split.
Qed.

(** ** The team selector *)

(** C9 fails on the code: a selector that names neither team is taken for
    team 2, whose points go from 0 to 15; the board changes and no error
    exists in the result. *)
Lemma addPoint_unknown_selector_scores :
  let st' := addPoint initialSettings initialTeam1 initialTeam2 "umpire" initialStore in
  points (team2 initialStore) = P0 /\
  points (team2 st') = P15 /\
  st' <> initialStore.
Proof.
  repeat split. vm_compute. discriminate.
Qed.

(** C9, as the code has it.  [addPoint] always returns a board, and every
    selector other than ['team1'] is scored exactly as ['team2']. *)
Theorem addPoint_other_selector_is_team2 settings c1 c2 team st :
  team <> "team1"%string ->
  addPoint settings c1 c2 team st = addPoint settings c1 c2 "team2" st.
Proof.
  intros N. apply String.eqb_neq in N.
  unfold addPoint, matchOverGuard, regularPointScoring, checkSetWin,
    setWinCondition, winGameUpdates, currentTeam, otherTeam,
    setCurrentTeam, setOtherTeam.
  rewrite N. reflexivity.
Qed.

Lemma addPoint_other_selector_is_team2_witness :
  addPoint initialSettings initialTeam1 initialTeam2 "umpire" initialStore =
  awardPoint initialSettings B initialStore.
Proof.
  apply (addPoint_other_selector_is_team2
           initialSettings initialTeam1 initialTeam2 "umpire" initialStore).
  discriminate.
Defined.

(** ** Boards that play can reach

    The set test of [addPoint] runs on every point.  On the boards reached
    from the start by the buttons it can only fire on a point that wins a
    game: no team ever stands at a game count that already takes the set. *)

Lemma setWinCondition_true_iff c1 c2 team g :
  setWinCondition c1 c2 team g = true <->
  6 <= g /\ games (otherTeam c1 c2 team) + 2 <= g.
Proof.
  unfold setWinCondition.
  rewrite andb_true_iff, orb_true_iff, andb_true_iff, !Z.leb_le, !Z.eqb_eq.
  lia.
Qed.

Lemma setWinCondition_false_iff c1 c2 team g :
  setWinCondition c1 c2 team g = false <->
  g < 6 \/ g < games (otherTeam c1 c2 team) + 2.
Proof.
  rewrite <- not_true_iff_false, setWinCondition_true_iff. lia.
Qed.

Lemma awardPoint_keeps_noSetPending settings t st :
  noSetPending st -> noSetPending (awardPoint settings t st).
Proof.
  unfold noSetPending, setPending, awardPoint, addPoint, checkSetWin.
  rewrite !setWinCondition_false_iff.
  destruct (matchOverGuard _ _ _ _); [tauto |].
  destruct (regularPointScoring _ _ _) as [[newPoints newGames] scored] eqn:R.
  destruct (setWinCondition _ _ _ newGames) eqn:W.
  - intros _.
    open_store st. destruct t; unfold_handlers; cbn in *;
      destruct points1, points2; inversion R; subst; cbn; lia.
  - apply setWinCondition_false_iff in W.
    open_store st. destruct t; unfold_handlers; cbn in *;
      destruct points1, points2; inversion R; subst; cbn; lia.
Qed.

Lemma played_noSetPending settings st :
  Played settings st -> noSetPending st.
Proof.
  induction 1 as [| t st _ IH | t st _ IH | st _ IH | st _ IH | st _ IH].
  - split; reflexivity.
  - now apply awardPoint_keeps_noSetPending.
  - destruct t; exact IH.
  - exact IH.
  - exact IH.
  - split; reflexivity.
Qed.

(** ** What a point leaves alone *)

(** X1.  Whatever teams the handler captured, whatever the selector and the
    board, [addPoint] keeps name, logo, players and tiebreak points of both
    teams, and the sets of the team that is not awarded. *)
Theorem addPoint_keeps_identity settings c1 c2 team st :
  let st' := addPoint settings c1 c2 team st in
  sameIdentity (team1 st) (team1 st') /\
  sameIdentity (team2 st) (team2 st') /\
  (if (team =? "team1")%string
   then sets (team2 st') = sets (team2 st)
   else sets (team1 st') = sets (team1 st)).
Proof.
  unfold sameIdentity. open_store st. unfold_handlers. cbn.
  destruct (team =? "team1")%string; cbn;
    destruct (Js.ceil_half _ <=? _); cbn; try (repeat split);
    destruct (points c1), (points c2); cbn;
    split_tests; cbn; repeat split.
Qed.

(** ** Service *)

(** X2.  A point that wins a game negates the serving flag of both teams; a
    point that does not, the frozen point after the match included, leaves
    both flags as they were. *)
Theorem serve_changes_exactly_on_game_win settings t st :
  let st' := awardPoint settings t st in
  (winsGame settings t st = true ->
   isServing (team1 st') = Some (Js.not (isServing (team1 st))) /\
   isServing (team2 st') = Some (Js.not (isServing (team2 st)))) /\
  (winsGame settings t st = false ->
   isServing (team1 st') = isServing (team1 st) /\
   isServing (team2 st') = isServing (team2 st)).
Proof.
  open_store st.
  destruct t; unfold_ops; unfold_handlers; cbn;
    destruct (Js.ceil_half _ <=? _); cbn;
    (split; intros W; try discriminate W; try (split; reflexivity));
    destruct points1, points2; try discriminate W; cbn;
    split_tests; cbn; split; reflexivity.
Qed.

Lemma serve_changes_exactly_on_game_win_witness :
  isServing (team1 (awardPoint initialSettings A gamePointStore)) = Some false /\
  isServing (team1 (awardPoint initialSettings A deuceStore)) = Some true.
Proof.
  split.
  - apply (proj1 (serve_changes_exactly_on_game_win initialSettings A gamePointStore)).
    reflexivity.
  - apply (proj2 (serve_changes_exactly_on_game_win initialSettings A deuceStore)).
    reflexivity.
Defined.

(** X3.  On every board, the button makes team 1 serve exactly when it did
    not, and team 2 serve exactly when team 1 did; pressed twice on a board
    whose flags are both set and opposite, it gives the board back. *)
Theorem switchServer_hands_over st :
  serves (team1 (switchServer st)) = negb (serves (team1 st)) /\
  serves (team2 (switchServer st)) = serves (team1 st) /\
  (forall b, isServing (team1 st) = Some b ->
             isServing (team2 st) = Some (negb b) ->
             switchServer (switchServer st) = st).
Proof.
  open_store st. unfold serves. unfold_ops. unfold_handlers. cbn.
  repeat split.
  - destruct serving1 as [[|]|]; reflexivity.
  - destruct serving1 as [[|]|]; reflexivity.
  - intros b -> ->. destruct b; reflexivity.
Qed.

Lemma switchServer_hands_over_witness :
  switchServer (switchServer initialStore) = initialStore.
Proof.
  apply (proj2 (proj2 (switchServer_hands_over initialStore)) true);
    reflexivity.
Defined.

(** X4.  The five-finger gesture and the button give the same board exactly
    on the boards that show one server. *)
Theorem gesture_switch_agrees_with_button settings st :
  gestureSwitchServer settings st = switchServer st <->
  exactlyOneServing st = true.
Proof.
  open_store st. unfold exactlyOneServing, serves.
  unfold_ops. unfold_handlers. cbn.
  destruct serving1 as [[|]|], serving2 as [[|]|]; cbn;
    split; intros H; try reflexivity; try discriminate H.
Qed.

(** ** Undo and redo *)

(** X5.  For a team that has not taken the match, taking a point back and
    awarding it again restores the board if and only if the team stood above
    0, held no already-decided set and, if it stood at Advantage, faced an
    opponent at 40. *)
Theorem awardPoint_undoes_revertPoint settings t st :
  matchOverFor settings t st = false ->
  (awardPoint settings t (revertPoint t st) = st <->
   points (teamOf t st) <> P0 /\
   (points (teamOf t st) = Ad -> points (teamOf (opponent t) st) = P40) /\
   setPending t st = false).
Proof.
  open_store st.
  destruct t; unfold_ops; unfold_handlers; cbn; intros G; rewrite G;
    destruct points1, points2; cbn; split_tests; cbn;
    (split;
     [ intros H; inversion H; try lia;
       repeat split; try (intro; discriminate); try (intros; reflexivity)
     | intros (N & D & S); try congruence;
       try (specialize (D eq_refl); discriminate D);
       try discriminate S; reflexivity ]).
Qed.

Lemma awardPoint_undoes_revertPoint_witness :
  awardPoint initialSettings A (revertPoint A advantageAStore) = advantageAStore.
Proof.
  apply (proj2 (awardPoint_undoes_revertPoint initialSettings A advantageAStore
                  eq_refl)).
  split; [discriminate |].
  split; reflexivity.
Defined.

(** X6.  Four reverts bring a team to 0 from anywhere on the ladder and
    change nothing else; a fifth changes nothing at all. *)
Theorem four_reverts_clear_points t st :
  let st4 := revertPoint t (revertPoint t (revertPoint t (revertPoint t st))) in
  st4 = updateTeam t (with_points P0) st /\
  revertPoint t st4 = st4.
Proof.
  open_store st.
  destruct t; unfold_ops; unfold_handlers; cbn;
    destruct points1, points2; split; reflexivity.
Qed.

(** ** Invariants of play *)

Lemma awardPoint_keeps_exactlyOneServing settings t st :
  exactlyOneServing st = true ->
  exactlyOneServing (awardPoint settings t st) = true.
Proof.
  open_store st. unfold exactlyOneServing, serves.
  destruct t; unfold_ops; unfold_handlers; cbn;
    destruct (Js.ceil_half _ <=? _); cbn; auto;
    destruct points1, points2; cbn; split_tests; cbn; auto;
    destruct serving1 as [[|]|], serving2 as [[|]|]; cbn; auto.
Qed.

(** X7.  On every board reached from the start by the buttons and the serve
    gesture, exactly one team is shown as serving. *)
Theorem played_exactly_one_server settings st :
  Played settings st -> exactlyOneServing st = true.
Proof.
  induction 1 as [| t st _ IH | t st _ IH | st _ IH | st _ IH | st _ IH].
  - reflexivity.
  - now apply awardPoint_keeps_exactlyOneServing.
  - destruct t; exact IH.
  - unfold exactlyOneServing, serves. cbn.
    destruct (Js.not (isServing (team1 st))); reflexivity.
  - revert IH. unfold exactlyOneServing, serves. cbn.
    destruct (isServing (team1 st)) as [[|]|], (isServing (team2 st)) as [[|]|];
      cbn; auto.
  - reflexivity.
Qed.

Lemma played_exactly_one_server_witness :
  exactlyOneServing (switchServer (awardPoint initialSettings A initialStore)) = true.
Proof.
  apply (played_exactly_one_server initialSettings).
  apply played_switch, played_award, played_start.
Defined.

Lemma awardPoint_keeps_scoresInRange settings t st :
  scoresInRange settings st -> scoresInRange settings (awardPoint settings t st).
Proof.
  unfold scoresInRange. open_store st.
  destruct t; unfold_ops; unfold_handlers; cbn;
    intros [[[? ?] ?] [[? ?] ?]];
    destruct (Js.ceil_half _ <=? _) eqn:G; cbn; try lia;
    apply Z.leb_gt in G;
    destruct points1, points2; cbn; split_tests; cbn; lia.
Qed.

(** X8.  With a win threshold that is not negative, on every board reached
    from the start each team's sets lie between 0 and the threshold and its
    games are not negative. *)
Theorem played_scores_in_range settings st :
  0 <= Js.ceil_half (GameSettings.sets settings) ->
  Played settings st -> scoresInRange settings st.
Proof.
  intros T.
  induction 1 as [| t st _ IH | t st _ IH | st _ IH | st _ IH | st _ IH].
  - unfold scoresInRange. cbn. lia.
  - now apply awardPoint_keeps_scoresInRange.
  - destruct t; exact IH.
  - exact IH.
  - exact IH.
  - unfold scoresInRange. cbn. lia.
Qed.

Lemma played_scores_in_range_witness :
  scoresInRange initialSettings (awardPoint initialSettings A initialStore).
Proof.
  apply (played_scores_in_range initialSettings).
  - discriminate.
  - apply played_award, played_start.
Defined.

Lemma resetMatch_of_sameIdentity st st' :
  sameIdentity (team1 st) (team1 st') ->
  sameIdentity (team2 st) (team2 st') ->
  resetMatch st' = resetMatch st.
Proof.
  unfold sameIdentity.
  destruct st as [[n1 l1 p1 s1 g1 q1 b1 v1] [n2 l2 p2 s2 g2 q2 b2 v2]].
  destruct st' as [[n1' l1' p1' s1' g1' q1' b1' v1'] [n2' l2' p2' s2' g2' q2' b2' v2']].
  cbn. intros (-> & -> & -> & _) (-> & -> & -> & _). reflexivity.
Qed.

Lemma addPoint_sameIdentity settings c1 c2 team st :
  sameIdentity (team1 st) (team1 (addPoint settings c1 c2 team st)) /\
  sameIdentity (team2 st) (team2 (addPoint settings c1 c2 team st)).
Proof.
  unfold sameIdentity. open_store st. unfold_handlers. cbn.
  destruct (team =? "team1")%string; cbn;
    destruct (Js.ceil_half _ <=? _); cbn; try (repeat split);
    destruct (points c1), (points c2); cbn;
    split_tests; cbn; repeat split.
Qed.

Lemma resetMatch_after_addPoint settings c1 c2 team st :
  resetMatch (addPoint settings c1 c2 team st) = resetMatch st.
Proof.
  destruct (addPoint_sameIdentity settings c1 c2 team st) as [I1 I2].
  exact (resetMatch_of_sameIdentity _ _ I1 I2).
Qed.

Lemma resetMatch_after_removePoint team st :
  resetMatch (removePoint team st) = resetMatch st.
Proof.
  apply resetMatch_of_sameIdentity; unfold sameIdentity, removePoint;
    destruct (team =? "team1")%string; cbn; repeat split.
Qed.

Lemma resetMatch_after_step st st' :
  ScoreboardStep st st' -> resetMatch st' = resetMatch st.
Proof.
  intros [settings c1 c2 team s | team s | settings c1 c2 fingers s | c1 s | s].
  - apply resetMatch_after_addPoint.
  - apply resetMatch_after_removePoint.
  - unfold handleGesture.
    destruct (fingers =? 1); [apply resetMatch_after_addPoint |].
    destruct (fingers =? 2); [apply resetMatch_after_addPoint |].
    destruct (fingers =? 3); [apply resetMatch_after_removePoint |].
    destruct (fingers =? 4); [apply resetMatch_after_removePoint |].
    destruct (fingers =? 5); reflexivity.
  - reflexivity.
  - reflexivity.
Qed.

(** X9.  A reset forgets the play.  After any number of calls of the
    scoreboard's handlers on a board ([addPoint] with any captured teams,
    settings and selector, [removePoint], any hand gesture, the
    "Switch Server" button) and of resets, a reset gives exactly the board a
    reset gives on the board the calls started from; started from the
    initial board, that is the initial board. *)
Theorem resetMatch_forgets_play st0 st :
  ScoreboardRun st0 st ->
  resetMatch st = resetMatch st0 /\
  (st0 = initialStore -> resetMatch st = initialStore).
Proof.
  intros R.
  assert (E : resetMatch st = resetMatch st0).
  { induction R as [s | s s' s'' _ IH S].
    - reflexivity.
    - rewrite (resetMatch_after_step s' s'' S). exact IH. }
  split; [exact E |].
  intros ->. rewrite E. reflexivity.
Qed.

Lemma resetMatch_forgets_play_witness :
  resetMatch
    (handleGesture initialSettings initialTeam1 initialTeam2 1
       (awardPoint initialSettings B initialStore)) = initialStore.
Proof.
  apply (proj2 (resetMatch_forgets_play initialStore
                  (handleGesture initialSettings initialTeam1 initialTeam2 1
                     (awardPoint initialSettings B initialStore))
                  (run_step _ _ _
                     (run_step _ _ _ (run_done initialStore)
                        (step_addPoint initialSettings initialTeam1 initialTeam2
                           "team2" initialStore))
                     (step_gesture initialSettings initialTeam1 initialTeam2 1 _)))).
  reflexivity.
Defined.

(** ** Runs of points *)

Lemma awardPoint_climbs settings t st :
  matchOverFor settings t st = false ->
  games (teamOf t st) < 6 ->
  (points (teamOf t st) = P0 \/ points (teamOf t st) = P15 \/
   points (teamOf t st) = P30) ->
  awardPoint settings t st =
  updateTeam t (with_points (climb (points (teamOf t st)))) st.
Proof.
  open_store st.
  destruct t; unfold_ops; unfold_handlers; cbn; intros G L P;
    rewrite G; destruct P as [-> | [-> | ->]]; cbn;
    match goal with
    | |- context [6 <=? ?g] => destruct (Z.leb_spec 6 g)
    end; try lia; reflexivity.
Qed.

Lemma awardPoint_wins_game settings t st :
  winsGame settings t st = true ->
  games (teamOf t st) + 1 < 6 ->
  awardPoint settings t st = gameWonBoard t st.
Proof.
  open_store st. unfold gameWonBoard, updateTeam.
  destruct t; unfold_ops; unfold_handlers; cbn; intros W L;
    apply andb_true_iff in W; destruct W as [G W];
    apply negb_true_iff in G; rewrite G;
    destruct points1, points2; try discriminate W; cbn;
    match goal with
    | |- context [6 <=? ?g] => destruct (Z.leb_spec 6 g)
    end; try lia; reflexivity.
Qed.

Lemma awardPoint_wins_set settings t st :
  winsGame settings t st = true ->
  6 <= games (teamOf t st) + 1 ->
  games (teamOf (opponent t) st) + 2 <= games (teamOf t st) + 1 ->
  awardPoint settings t st = setWonBoard t st.
Proof.
  intros W L M.
  assert (C : setWinCondition (team1 st) (team2 st) (selector t)
                (games (teamOf t st) + 1) = true).
  { apply setWinCondition_true_iff. destruct t; cbn in *; lia. }
  revert W C. clear L M.
  open_store st. unfold setWonBoard, updateTeam.
  destruct t; unfold winsGame, matchOverFor, awardPoint, addPoint, checkSetWin,
    regularPointScoring, teamOf, opponent, selector; cbn - [setWinCondition];
    intros W C;
    apply andb_true_iff in W; destruct W as [G W];
    apply negb_true_iff in G; rewrite G;
    destruct points1, points2; try discriminate W; cbn - [setWinCondition];
    rewrite C; reflexivity.
Qed.

Lemma awardPoints_app settings l1 l2 st :
  awardPoints settings (l1 ++ l2) st =
  awardPoints settings l2 (awardPoints settings l1 st).
Proof.
  revert st. induction l1 as [| t l1 IH]; intros st; cbn; auto.
Qed.

(** A love game, as a board. *)
Lemma love_game_board settings t st :
  points (teamOf t st) = P0 ->
  (points (teamOf (opponent t) st) = P0 \/
   points (teamOf (opponent t) st) = P15 \/
   points (teamOf (opponent t) st) = P30) ->
  matchOverFor settings t st = false ->
  games (teamOf t st) < 5 ->
  awardPoints settings [t; t; t; t] st = gameWonBoard t st.
Proof.
  intros P O G L. cbn [awardPoints].
  rewrite (awardPoint_climbs settings t st) by (auto; lia).
  rewrite P. cbn [climb].
  set (st1 := updateTeam t (with_points P15) st).
  assert (E1 : teamOf t st1 = with_points P15 (teamOf t st))
    by (destruct t; reflexivity).
  assert (O1 : teamOf (opponent t) st1 = teamOf (opponent t) st)
    by (destruct t; reflexivity).
  assert (G1 : matchOverFor settings t st1 = false)
    by (destruct t; exact G).
  rewrite (awardPoint_climbs settings t st1)
    by (rewrite ?E1; cbn; auto; lia).
  rewrite E1. cbn [with_points points climb].
  set (st2 := updateTeam t (with_points P30) st1).
  assert (E2 : teamOf t st2 = with_points P30 (teamOf t st1))
    by (destruct t; reflexivity).
  assert (O2 : teamOf (opponent t) st2 = teamOf (opponent t) st)
    by (destruct t; exact O1).
  assert (G2 : matchOverFor settings t st2 = false)
    by (destruct t; exact G).
  rewrite (awardPoint_climbs settings t st2)
    by (rewrite ?E2, ?E1; cbn; auto; lia).
  rewrite E2. cbn [with_points points climb].
  set (st3 := updateTeam t (with_points P40) st2).
  assert (E3 : teamOf t st3 = with_points P40 (teamOf t st2))
    by (destruct t; reflexivity).
  assert (O3 : teamOf (opponent t) st3 = teamOf (opponent t) st)
    by (destruct t; exact O2).
  assert (W3 : winsGame settings t st3 = true).
  { unfold winsGame. rewrite E3, O3.
    replace (matchOverFor settings t st3) with false
      by (symmetry; destruct t; exact G).
    cbn. destruct O as [-> | [-> | ->]]; reflexivity. }
  rewrite (awardPoint_wins_game settings t st3 W3)
    by (rewrite E3, E2, E1; cbn; lia).
  subst st3 st2 st1. clear - P.
  open_store st. destruct t; cbn in *; subst; reflexivity.
Qed.

(** X10.  Four points in a row for a team at 0, against an opponent below
    40, while the team has not taken the match and stands below 5 games: the
    team gains one game, both teams are at 0 points, both serving flags are
    negated, and sets and the opponent's games are as before. *)
Theorem four_points_win_a_game settings t st :
  points (teamOf t st) = P0 ->
  (points (teamOf (opponent t) st) = P0 \/
   points (teamOf (opponent t) st) = P15 \/
   points (teamOf (opponent t) st) = P30) ->
  matchOverFor settings t st = false ->
  games (teamOf t st) < 5 ->
  let o := opponent t in
  let st' := awardPoints settings [t; t; t; t] st in
  games (teamOf t st') = games (teamOf t st) + 1 /\
  games (teamOf o st') = games (teamOf o st) /\
  points (teamOf t st') = P0 /\ points (teamOf o st') = P0 /\
  sets (teamOf t st') = sets (teamOf t st) /\
  sets (teamOf o st') = sets (teamOf o st) /\
  isServing (teamOf t st') = Some (Js.not (isServing (teamOf t st))) /\
  isServing (teamOf o st') = Some (Js.not (isServing (teamOf o st))).
Proof.
  intros P O G L o st'. subst o st'.
  rewrite (love_game_board settings t st P O G L).
  destruct t; cbn; repeat split.
Qed.

Lemma four_points_win_a_game_witness :
  games (teamOf B (awardPoints initialSettings [B; B; B; B] initialStore)) =
  games (teamOf B initialStore) + 1.
Proof.
  exact (proj1 (four_points_win_a_game initialSettings B initialStore
                  eq_refl (or_introl eq_refl) eq_refl eq_refl)).
Defined.

(** ** Gestures *)

(** X11.  The gesture handler scores from the teams it captured, not from
    the board: whenever the captured awarded team has not taken the match,
    the points, games and sets the gesture writes for it are the same on
    every board; and unless the captured teams stand at a game point for it,
    a second gesture changes nothing the first did not. *)
Theorem gesture_points_do_not_accumulate settings c1 c2 t :
  let gesture := handleGesture settings c1 c2 (pointGesture t) in
  (matchOverFor settings t (mkStore c1 c2) = false ->
   forall st st' : Store,
     scoreOf (teamOf t (gesture st)) = scoreOf (teamOf t (gesture st'))) /\
  (winsGame settings t (mkStore c1 c2) = false ->
   forall st : Store, gesture (gesture st) = gesture st).
Proof.
  destruct c1 as [n1 l1 p1 s1 g1 q1 b1 v1], c2 as [n2 l2 p2 s2 g2 q2 b2 v2].
  unfold scoreOf.
  destruct t; unfold pointGesture, handleGesture; cbn [Z.eqb Pos.eqb];
    unfold_ops; unfold_handlers; cbn; split.
  all: try (intros G st st'; rewrite G; cbn;
            destruct q1, q2; cbn; split_tests; reflexivity).
  all: intros W st; destruct (Js.ceil_half _ <=? _); cbn in *;
    try reflexivity;
    destruct q1, q2; try discriminate W; cbn; split_tests; reflexivity.
Qed.

Lemma gesture_points_do_not_accumulate_witness :
  let gesture :=
    handleGesture initialSettings initialTeam1 initialTeam2 (pointGesture A) in
  (forall st st' : Store,
     scoreOf (teamOf A (gesture st)) = scoreOf (teamOf A (gesture st'))) /\
  (forall st : Store, gesture (gesture st) = gesture st).
Proof.
  exact (conj
           (proj1 (gesture_points_do_not_accumulate
                     initialSettings initialTeam1 initialTeam2 A) eq_refl)
           (proj2 (gesture_points_do_not_accumulate
                     initialSettings initialTeam1 initialTeam2 A) eq_refl)).
Defined.

(** ** Sets on the boards of play *)

(** X12.  On a board where the awarded team's game count does not already
    pass the set test, a point changes that team's sets only by winning a
    game: the sets then go up by exactly one, and the team has at least 6
    games and at least two more than the opponent, the game just won
    included.  On a board where the count already passes the test and the
    team has not taken the match, every point for it raises its sets by
    one. *)
Theorem set_change_needs_game_win settings t st :
  (setPending t st = false ->
   sets (teamOf t (awardPoint settings t st)) <> sets (teamOf t st) ->
   winsGame settings t st = true /\
   sets (teamOf t (awardPoint settings t st)) = sets (teamOf t st) + 1 /\
   6 <= games (teamOf t st) + 1 /\
   games (teamOf (opponent t) st) + 2 <= games (teamOf t st) + 1) /\
  (setPending t st = true ->
   matchOverFor settings t st = false ->
   sets (teamOf t (awardPoint settings t st)) = sets (teamOf t st) + 1).
Proof.
  unfold setPending.
  rewrite setWinCondition_false_iff, setWinCondition_true_iff.
  open_store st.
  destruct t; unfold_ops; unfold_handlers; cbn; split.
  all: try (intros PA;
            destruct (Js.ceil_half _ <=? _); cbn; try congruence;
            destruct points1, points2; cbn;
            split_tests; cbn; bool_to_Z; intros N;
            try congruence; try lia; repeat split; lia).
  all: intros PA G; rewrite G;
    destruct points1, points2; cbn;
    split_tests; cbn; bool_to_Z; lia.
Qed.

Lemma set_change_needs_game_win_witness :
  winsGame initialSettings A setPointStore = true /\
  sets (teamOf A (awardPoint initialSettings A deuceSetPendingStore)) =
    sets (teamOf A deuceSetPendingStore) + 1.
Proof.
  split.
  - apply (proj1 (set_change_needs_game_win initialSettings A setPointStore)).
    + reflexivity.
    + vm_compute. discriminate.
  - apply (proj2 (set_change_needs_game_win initialSettings A deuceSetPendingStore));
      reflexivity.
Defined.

Lemma serves_flipServing x : serves (flipServing x) = negb (serves x).
Proof.
  unfold serves, flipServing, with_isServing. cbn.
  destruct (isServing x) as [[|]|]; reflexivity.
Qed.

Lemma gameWonBoard_fields t st :
  let st' := gameWonBoard t st in
  (points (teamOf t st') = P0 /\ points (teamOf (opponent t) st') = P0) /\
  (games (teamOf t st') = games (teamOf t st) + 1 /\
   games (teamOf (opponent t) st') = games (teamOf (opponent t) st)) /\
  (sets (teamOf t st') = sets (teamOf t st) /\
   sets (teamOf (opponent t) st') = sets (teamOf (opponent t) st)) /\
  (serves (teamOf t st') = negb (serves (teamOf t st)) /\
   serves (teamOf (opponent t) st') = negb (serves (teamOf (opponent t) st))).
Proof.
  destruct t; cbn; repeat split; apply serves_flipServing.
Qed.

Lemma setWonBoard_fields t st :
  let st' := setWonBoard t st in
  (points (teamOf t st') = P0 /\ points (teamOf (opponent t) st') = P0) /\
  (games (teamOf t st') = 0 /\ games (teamOf (opponent t) st') = 0) /\
  (sets (teamOf t st') = sets (teamOf t st) + 1 /\
   sets (teamOf (opponent t) st') = sets (teamOf (opponent t) st)) /\
  (serves (teamOf t st') = negb (serves (teamOf t st)) /\
   serves (teamOf (opponent t) st') = negb (serves (teamOf (opponent t) st))).
Proof.
  destruct t; cbn; repeat split; apply serves_flipServing.
Qed.

Lemma matchOverFor_gameWonBoard settings t st :
  matchOverFor settings t (gameWonBoard t st) = matchOverFor settings t st.
Proof.
  destruct t; reflexivity.
Qed.

(** Three points from 0 bring a team to 40 and change nothing else. *)
Lemma three_points_board settings t st :
  points (teamOf t st) = P0 ->
  matchOverFor settings t st = false ->
  games (teamOf t st) < 6 ->
  awardPoints settings [t; t; t] st = updateTeam t (with_points P40) st.
Proof.
  intros P G L. cbn [awardPoints].
  rewrite (awardPoint_climbs settings t st) by (auto; lia).
  rewrite P. cbn [climb].
  set (st1 := updateTeam t (with_points P15) st).
  assert (E1 : teamOf t st1 = with_points P15 (teamOf t st))
    by (destruct t; reflexivity).
  assert (G1 : matchOverFor settings t st1 = false)
    by (destruct t; exact G).
  rewrite (awardPoint_climbs settings t st1)
    by (rewrite ?E1; cbn; auto; lia).
  rewrite E1. cbn [with_points points climb].
  set (st2 := updateTeam t (with_points P30) st1).
  assert (E2 : teamOf t st2 = with_points P30 (teamOf t st1))
    by (destruct t; reflexivity).
  assert (G2 : matchOverFor settings t st2 = false)
    by (destruct t; exact G).
  rewrite (awardPoint_climbs settings t st2)
    by (rewrite ?E2, ?E1; cbn; auto; lia).
  rewrite E2. cbn [with_points points climb].
  subst st2 st1. destruct t; reflexivity.
Qed.

(** A love game that takes the set, as a board. *)
Lemma love_set_board settings t st :
  points (teamOf t st) = P0 ->
  (points (teamOf (opponent t) st) = P0 \/
   points (teamOf (opponent t) st) = P15 \/
   points (teamOf (opponent t) st) = P30) ->
  matchOverFor settings t st = false ->
  games (teamOf t st) = 5 ->
  games (teamOf (opponent t) st) <= 4 ->
  awardPoints settings [t; t; t; t] st = setWonBoard t st.
Proof.
  intros P O G L M.
  change [t; t; t; t] with ([t; t; t] ++ [t]).
  rewrite awardPoints_app, (three_points_board settings t st P G) by lia.
  cbn [awardPoints].
  set (st3 := updateTeam t (with_points P40) st).
  assert (E3 : teamOf t st3 = with_points P40 (teamOf t st))
    by (destruct t; reflexivity).
  assert (O3 : teamOf (opponent t) st3 = teamOf (opponent t) st)
    by (destruct t; reflexivity).
  assert (W3 : winsGame settings t st3 = true).
  { unfold winsGame. rewrite E3, O3.
    replace (matchOverFor settings t st3) with false
      by (symmetry; destruct t; exact G).
    cbn. destruct O as [-> | [-> | ->]]; reflexivity. }
  rewrite (awardPoint_wins_set settings t st3 W3)
    by (rewrite ?E3, ?O3; cbn; lia).
  subst st3. clear - P.
  open_store st. destruct t; cbn in *; subst; reflexivity.
Qed.

Lemma love_games_then_set settings t n :
  forall st,
    points (teamOf t st) = P0 ->
    (points (teamOf (opponent t) st) = P0 \/
     points (teamOf (opponent t) st) = P15 \/
     points (teamOf (opponent t) st) = P30) ->
    matchOverFor settings t st = false ->
    games (teamOf t st) = 5 - Z.of_nat n ->
    0 <= games (teamOf t st) ->
    games (teamOf (opponent t) st) <= 4 ->
    let o := opponent t in
    let st' := awardPoints settings (gamesFor t (S n)) st in
    (points (teamOf t st') = P0 /\ points (teamOf o st') = P0) /\
    (games (teamOf t st') = 0 /\ games (teamOf o st') = 0) /\
    (sets (teamOf t st') = sets (teamOf t st) + 1 /\
     sets (teamOf o st') = sets (teamOf o st)) /\
    (serves (teamOf t st') = Nat.iter (S n) negb (serves (teamOf t st)) /\
     serves (teamOf o st') = Nat.iter (S n) negb (serves (teamOf o st))).
Proof.
  induction n as [| n IH]; intros st P O G E L M o st'; subst o st'.
  - unfold gamesFor. cbn [List.repeat List.concat]. rewrite app_nil_r.
    rewrite (love_set_board settings t st P O G) by lia.
    exact (setWonBoard_fields t st).
  - change (gamesFor t (S (S n))) with ([t; t; t; t] ++ gamesFor t (S n)).
    rewrite awardPoints_app.
    rewrite (love_game_board settings t st P O G) by lia.
    destruct (gameWonBoard_fields t st)
      as ((Pt & Po) & (Gt & Go) & (St & So) & (Vt & Vo)).
    specialize (IH (gameWonBoard t st) Pt (or_introl Po)).
    rewrite matchOverFor_gameWonBoard in IH.
    specialize (IH G ltac:(lia) ltac:(lia) ltac:(lia)).
    cbn zeta in IH.
    destruct IH as (HP & HG & (HSt & HSo) & (HVt & HVo)).
    rewrite HSt, HSo, HVt, HVo, St, So, Vt, Vo.
    repeat split; try tauto.
    + symmetry. apply Nat.iter_succ_r.
    + symmetry. apply Nat.iter_succ_r.
Qed.

(** X13.  Six love games make a set: from 0 games and 0 points, against an
    opponent with at most 4 games and fewer than 40 points, a team that has
    not taken the match gains one set with 24 points in a row; afterwards
    both teams have 0 games and 0 points, the opponent's sets are as before
    and the same team is shown serving. *)
Theorem six_love_games_win_a_set settings t st :
  points (teamOf t st) = P0 ->
  games (teamOf t st) = 0 ->
  (points (teamOf (opponent t) st) = P0 \/
   points (teamOf (opponent t) st) = P15 \/
   points (teamOf (opponent t) st) = P30) ->
  games (teamOf (opponent t) st) <= 4 ->
  matchOverFor settings t st = false ->
  let o := opponent t in
  let st' := awardPoints settings (gamesFor t 6) st in
  sets (teamOf t st') = sets (teamOf t st) + 1 /\
  sets (teamOf o st') = sets (teamOf o st) /\
  games (teamOf t st') = 0 /\ games (teamOf o st') = 0 /\
  points (teamOf t st') = P0 /\ points (teamOf o st') = P0 /\
  serves (teamOf t st') = serves (teamOf t st) /\
  serves (teamOf o st') = serves (teamOf o st).
Proof.
  intros P E O M G o st'.
  destruct (love_games_then_set settings t 5 st P O G)
    as ((Pt & Po) & (Gt & Go) & (St & So) & (Vt & Vo)); try (rewrite E; lia);
    try assumption.
  subst o st'. rewrite Vt, Vo.
  repeat split; try assumption.
  - cbn. destruct (serves (teamOf t st)); reflexivity.
  - cbn. destruct (serves (teamOf (opponent t) st)); reflexivity.
Qed.

Lemma six_love_games_win_a_set_witness :
  sets (teamOf A (awardPoints initialSettings (gamesFor A 6) initialStore)) =
  sets (teamOf A initialStore) + 1.
Proof.
  exact (proj1 (six_love_games_win_a_set initialSettings A initialStore
                  eq_refl eq_refl (or_introl eq_refl)
                  ltac:(cbn; lia) eq_refl)).
Defined.

(** ** The match clock *)

Lemma bounded_check (f : Z -> bool) (k : nat) :
  forallb (fun i => f (Z.of_nat i)) (List.seq 0 k) = true ->
  forall n, 0 <= n < Z.of_nat k -> f n = true.
Proof.
  intros H n R. rewrite forallb_forall in H.
  rewrite <- (Z2Nat.id n) by lia. apply H. apply in_seq. lia.
Qed.

Lemma option_Z_eqb (o : option Z) (n : Z) :
  match o with Some m => m =? n | None => false end = true -> o = Some n.
Proof.
  destruct o as [m |]; [| discriminate].
  intros H. apply Z.eqb_eq in H. now subst.
Qed.

Lemma padStart0_two_digits n :
  0 <= n < 100 ->
  padStart0 2 (toString n) =
  String (digitChar (n / 10)) (String (digitChar (n mod 10)) EmptyString).
Proof.
  intros R. apply String.eqb_eq.
  apply (bounded_check
           (fun n => String.eqb (padStart0 2 (toString n))
                       (String (digitChar (n / 10))
                          (String (digitChar (n mod 10)) EmptyString)))
           100); [vm_compute; reflexivity | exact R].
Qed.

Lemma twoDigits_digitChar n :
  0 <= n < 100 ->
  twoDigits (digitChar (n / 10)) (digitChar (n mod 10)) = Some n.
Proof.
  intros R. apply option_Z_eqb.
  apply (bounded_check
           (fun n => match twoDigits (digitChar (n / 10)) (digitChar (n mod 10)) with
                     | Some m => m =? n
                     | None => false
                     end)
           100); [vm_compute; reflexivity | exact R].
Qed.

(** X14.  For a match time from 0 up to 99:59:59 the clock text has exactly
    8 characters and reads back to the same number of seconds, so two
    different times never show the same clock. *)
Theorem formatTime_reads_back time :
  0 <= time < 360000 ->
  String.length (formatTime time) = 8%nat /\
  readClock (formatTime time) = Some time.
Proof.
  intros R. unfold formatTime.
  rewrite !Z.rem_mod_nonneg by lia.
  assert (Hh : 0 <= time / 3600 < 100).
  { split; [apply Z.div_pos; lia | apply Z.div_lt_upper_bound; lia]. }
  assert (Hm : 0 <= time mod 3600 / 60 < 60).
  { pose proof (Z.mod_pos_bound time 3600 ltac:(lia)).
    split; [apply Z.div_pos; lia | apply Z.div_lt_upper_bound; lia]. }
  assert (Hs : 0 <= time mod 60 < 60) by (apply Z.mod_pos_bound; lia).
  rewrite !padStart0_two_digits by lia.
  split; [reflexivity |].
  cbn [append readClock]. cbn [Ascii.eqb Bool.eqb andb].
  rewrite !twoDigits_digitChar by lia.
  f_equal.
  pose proof (Z.div_mod time 3600 ltac:(lia)).
  pose proof (Z.div_mod (time mod 3600) 60 ltac:(lia)).
  assert (E : time mod 60 = (time mod 3600) mod 60).
  { rewrite (Z.div_mod time 3600) at 1 by lia.
    replace (3600 * (time / 3600)) with ((60 * (time / 3600)) * 60) by lia.
    rewrite Z.add_comm, Z.mod_add by lia. reflexivity. }
  lia.
Qed.

Lemma formatTime_reads_back_witness :
  String.length (formatTime 3725) = 8%nat /\
  readClock (formatTime 3725) = Some 3725.
Proof.
  apply (formatTime_reads_back 3725). lia.
Defined.

(** ** Colours *)

Lemma channel_two_hex x :
  0 <= x < 256 ->
  (let hex := toString16 x in
   if (String.length hex =? 1)%nat then ("0" ++ hex)%string else hex) =
  String (hexChar (x / 16)) (String (hexChar (x mod 16)) EmptyString).
Proof.
  intros R. apply String.eqb_eq.
  apply (bounded_check
           (fun x => String.eqb
                       (let hex := toString16 x in
                        if (String.length hex =? 1)%nat
                        then ("0" ++ hex)%string else hex)
                       (String (hexChar (x / 16))
                          (String (hexChar (x mod 16)) EmptyString)))
           256); [vm_compute; reflexivity | exact R].
Qed.

Lemma twoHex_hexChar x :
  0 <= x < 256 ->
  twoHex (hexChar (x / 16)) (hexChar (x mod 16)) = Some x.
Proof.
  intros R. apply option_Z_eqb.
  apply (bounded_check
           (fun x => match twoHex (hexChar (x / 16)) (hexChar (x mod 16)) with
                     | Some m => m =? x
                     | None => false
                     end)
           256); [vm_compute; reflexivity | exact R].
Qed.

(** X15.  For channels between 0 and 255 the colour text has exactly 7
    characters, starts with [#], and reads back to the same three channels,
    so different colours give different texts. *)
Theorem rgbToHex_reads_back r g b :
  0 <= r <= 255 -> 0 <= g <= 255 -> 0 <= b <= 255 ->
  String.length (rgbToHex r g b) = 7%nat /\
  String.prefix "#" (rgbToHex r g b) = true /\
  readHexColour (rgbToHex r g b) = Some (r, g, b).
Proof.
  intros Hr Hg Hb. unfold rgbToHex. cbn [map String.concat].
  rewrite !channel_two_hex by lia.
  split; [reflexivity |]. split; [reflexivity |].
  cbn [append readHexColour]. cbn [Ascii.eqb Bool.eqb andb].
  rewrite !twoHex_hexChar by lia. reflexivity.
Qed.

Lemma rgbToHex_reads_back_witness :
  String.length (rgbToHex 4 120 87) = 7%nat /\
  String.prefix "#" (rgbToHex 4 120 87) = true /\
  readHexColour (rgbToHex 4 120 87) = Some (4, 120, 87).
Proof.
  apply (rgbToHex_reads_back 4 120 87); lia.
Defined.

(** ** Image files *)

(** X16.  The upload widget and the settings form let the same files
    through, namely those of at most 2 MiB whose type starts with [image/],
    except that the widget also turns away empty files; on a file that is
    both too large and not an image, [validateImageFile] reports the size
    and the settings form reports the type. *)
Theorem image_checks_agree file :
  (validateImageFile file = None <->
   size file <= 2097152 /\ String.prefix "image/" (type_ file) = true) /\
  (handleImageUpload_check file = None <-> validateImageFile file = None) /\
  (handleFileChange_check file = None <->
   size file <> 0 /\ validateImageFile file = None) /\
  (2097152 < size file -> String.prefix "image/" (type_ file) = false ->
   validateImageFile file = Some tooLargeMessage /\
   handleImageUpload_check file =
     Some "Please upload an image file (PNG, JPG, etc.)"%string).
Proof.
  unfold handleFileChange_check, handleImageUpload_check, validateImageFile.
  change (2 * 1024 * 1024) with 2097152.
  destruct (Z.ltb_spec 2097152 (size file)),
    (String.prefix "image/" (type_ file)),
    (Z.eqb_spec (size file) 0); cbn;
    repeat split; intros; try discriminate; try lia; try tauto;
    try reflexivity;
    repeat match goal with H : _ /\ _ |- _ => destruct H end;
    try discriminate; try lia.
Qed.

Lemma image_checks_agree_witness :
  validateImageFile (mkFile 3000000 "text/plain") = Some tooLargeMessage.
Proof.
  apply (proj2 (proj2 (proj2 (image_checks_agree (mkFile 3000000 "text/plain")))));
    reflexivity.
Defined.

(** ** Writing the board to the store *)

Lemma totalWait_backoff delay k :
  totalWait (backoff delay k) = delay * (2 ^ Z.of_nat k - 1).
Proof.
  revert delay. induction k as [| k IH]; intros delay.
  - cbn. lia.
  - cbn [backoff totalWait fold_right]. fold (totalWait (backoff (delay * 2) k)).
    rewrite IH, Nat2Z.inj_succ, Z.pow_succ_r by lia. lia.
Qed.

Lemma updateScoreboard_rejected_run server id_c k :
  forall retries delay s,
    (k <= retries)%nat ->
    (forall i, (i < k)%nat -> server (Sync.requests s + i)%nat = Rejected) ->
    forall data, server (Sync.requests s + k)%nat = Stored data ->
    let s' := updateScoreboard server false id_c retries delay s in
    Sync.requests s' = (Sync.requests s + k + 1)%nat /\
    Sync.waits s' = Sync.waits s ++ backoff delay k /\
    Sync.error s' = None /\
    Sync.retryCount s' = 0 /\
    Sync.updating s' = false /\
    Sync.scoreboardId s' =
      match id_c, data with
      | None, Some id => Some id
      | _, _ => Sync.scoreboardId s
      end.
Proof.
  induction k as [| k IH]; intros retries delay s L R data St.
  - rewrite Nat.add_0_r in St.
    destruct retries; cbn; rewrite St; cbn;
      rewrite app_nil_r; repeat split; lia.
  - destruct retries as [| retries]; [lia |].
    assert (R0 : server (Sync.requests s) = Rejected).
    { rewrite <- (Nat.add_0_r (Sync.requests s)). apply R. lia. }
    assert (R' : forall i, (i < k)%nat ->
                 server (S (Sync.requests s) + i)%nat = Rejected).
    { intros i Hi.
      replace (S (Sync.requests s) + i)%nat with (Sync.requests s + S i)%nat
        by lia.
      apply R. lia. }
    assert (St' : server (S (Sync.requests s) + k)%nat = Stored data).
    { replace (S (Sync.requests s) + k)%nat with (Sync.requests s + S k)%nat
        by lia.
      exact St. }
    assert (L' : (k <= retries)%nat) by lia.
    cbn [updateScoreboard]. rewrite R0.
    match goal with
    | |- context [updateScoreboard server false id_c retries (delay * 2) ?s2] =>
        specialize (IH retries (delay * 2) s2 L' R' data St');
        set (s3 := updateScoreboard server false id_c retries (delay * 2) s2) in *
    end.
    cbn [Sync.requests Sync.waits Sync.scoreboardId Sync.error
         Sync.retryCount Sync.updating] in IH |- *.
    destruct IH as (Hq & Hw & He & Hc & Hu & Hi).
    rewrite Hq, Hw, He, Hc, Hi, <- app_assoc.
    repeat split. lia.
Qed.

(** X17.  When the first [k] requests are rejected and the next one is
    stored, with [k] at most the number of retries: exactly [k + 1] requests
    are sent, the waits before the retries are [delay], [2 * delay], ...,
    summing to [delay * (2^k - 1)]; no error is left, the retry count is back
    at 0, the in-flight flag is down, and a board that had no id takes the
    one the store returned. *)
Theorem updateScoreboard_succeeds_after_retries server id_c k retries delay s data :
  (k <= retries)%nat ->
  (forall i, (i < k)%nat -> server (Sync.requests s + i)%nat = Rejected) ->
  server (Sync.requests s + k)%nat = Stored data ->
  let s' := updateScoreboard server false id_c retries delay s in
  Sync.requests s' = (Sync.requests s + k + 1)%nat /\
  Sync.waits s' = Sync.waits s ++ backoff delay k /\
  totalWait (backoff delay k) = delay * (2 ^ Z.of_nat k - 1) /\
  Sync.error s' = None /\
  Sync.retryCount s' = 0 /\
  Sync.updating s' = false /\
  Sync.scoreboardId s' =
    match id_c, data with
    | None, Some id => Some id
    | _, _ => Sync.scoreboardId s
    end.
Proof.
  intros L R St s'.
  destruct (updateScoreboard_rejected_run server id_c k retries delay s L R data St)
    as (H1 & H2 & H3 & H4 & H5 & H6).
  repeat split; try assumption. apply totalWait_backoff.
Qed.

Lemma updateScoreboard_succeeds_after_retries_witness :
  let s' := updateScoreboard flakyServer false None 3 1000 idleSync in
  Sync.requests s' = 3%nat /\
  Sync.waits s' = [1000; 2000] /\
  Sync.scoreboardId s' = Some "board-1"%string.
Proof.
  destruct (updateScoreboard_succeeds_after_retries
              flakyServer None 2 3 1000 idleSync (Some "board-1"%string))
    as (H1 & H2 & _ & _ & _ & _ & H7).
  - lia.
  - intros i Hi. destruct i as [| [| i]]; [reflexivity | reflexivity | lia].
  - reflexivity.
  - repeat split; assumption.
Defined.

(** X18.  When the request and every retry are rejected: exactly
    [retries + 1] requests are sent, the waits are the [retries] doubling
    delays, the failure message is left in [error], the retry count has
    grown by [retries], the board id is unchanged and the in-flight flag is
    down. *)
Theorem updateScoreboard_gives_up server id_c retries delay s :
  (forall i, (i <= retries)%nat -> server (Sync.requests s + i)%nat = Rejected) ->
  let s' := updateScoreboard server false id_c retries delay s in
  Sync.requests s' = (Sync.requests s + retries + 1)%nat /\
  Sync.waits s' = Sync.waits s ++ backoff delay retries /\
  Sync.error s' = Some failedMessage /\
  Sync.retryCount s' = Sync.retryCount s + Z.of_nat retries /\
  Sync.scoreboardId s' = Sync.scoreboardId s /\
  Sync.updating s' = false.
Proof.
  revert delay s. induction retries as [| retries IH]; intros delay s R.
  - assert (R0 : server (Sync.requests s) = Rejected).
    { rewrite <- (Nat.add_0_r (Sync.requests s)). apply R. lia. }
    cbn. rewrite R0. cbn. rewrite app_nil_r.
    repeat split; lia.
  - assert (R0 : server (Sync.requests s) = Rejected).
    { rewrite <- (Nat.add_0_r (Sync.requests s)). apply R. lia. }
    assert (R' : forall i, (i <= retries)%nat ->
                 server (S (Sync.requests s) + i)%nat = Rejected).
    { intros i Hi.
      replace (S (Sync.requests s) + i)%nat with (Sync.requests s + S i)%nat
        by lia.
      apply R. lia. }
    cbn [updateScoreboard]. rewrite R0.
    match goal with
    | |- context [updateScoreboard server false id_c retries (delay * 2) ?s2] =>
        specialize (IH (delay * 2) s2 R');
        set (s3 := updateScoreboard server false id_c retries (delay * 2) s2) in *
    end.
    cbn [Sync.requests Sync.waits Sync.scoreboardId Sync.error
         Sync.retryCount Sync.updating] in IH |- *.
    destruct IH as (Hq & Hw & He & Hc & Hi & Hu).
    rewrite Hq, Hw, He, Hc, Hi, <- app_assoc.
    repeat split; lia.
Qed.

Lemma updateScoreboard_gives_up_witness :
  let s' := updateScoreboard (fun _ => Rejected) false None 3 1000 idleSync in
  Sync.requests s' = 4%nat /\
  Sync.waits s' = [1000; 2000; 4000] /\
  Sync.error s' = Some failedMessage.
Proof.
  destruct (updateScoreboard_gives_up (fun _ => Rejected) None 3 1000 idleSync)
    as (H1 & H2 & H3 & _).
  - reflexivity.
  - repeat split; assumption.
Defined.

(** X19.  Whatever the store answers, one call sends at least one and at
    most [retries + 1] requests, and with a delay that is not negative it
    waits no longer than [delay * (2^retries - 1)] in all; a call made while
    a write is in flight sends nothing. *)
Theorem updateScoreboard_is_bounded server id_c retries delay s :
  0 <= delay ->
  let s' := updateScoreboard server false id_c retries delay s in
  (Sync.requests s < Sync.requests s' <= Sync.requests s + retries + 1)%nat /\
  (exists extra,
     Sync.waits s' = Sync.waits s ++ extra /\
     0 <= totalWait extra <= delay * (2 ^ Z.of_nat retries - 1)) /\
  updateScoreboard server true id_c retries delay s = s.
Proof.
  intros D. cbn zeta.
  split; [| split].
  - revert delay s D. induction retries as [| retries IH]; intros delay s D.
    + cbn [updateScoreboard]. destruct (server _);
        cbn [Sync.requests]; lia.
    + cbn [updateScoreboard]. destruct (server _);
        cbn [Sync.requests]; [| lia].
      match goal with
      | |- context [updateScoreboard server false id_c retries (delay * 2) ?s2] =>
          specialize (IH (delay * 2) s2 ltac:(lia))
      end.
      cbn [Sync.requests] in IH. lia.
  - revert delay s D. induction retries as [| retries IH]; intros delay s D.
    + exists []. cbn [updateScoreboard]. destruct (server _);
        cbn [Sync.waits totalWait fold_right Z.of_nat Z.pow];
        rewrite app_nil_r; split; auto; lia.
    + cbn [updateScoreboard]. destruct (server _); cbn [Sync.waits].
      * match goal with
        | |- context [updateScoreboard server false id_c retries (delay * 2) ?s2] =>
            destruct (IH (delay * 2) s2 ltac:(lia)) as (extra & E & B)
        end.
        cbn [Sync.waits] in E.
        exists (delay :: extra). rewrite E, <- app_assoc. cbn [app].
        split; [reflexivity |].
        cbn [totalWait fold_right]. fold (totalWait extra).
        rewrite Nat2Z.inj_succ, Z.pow_succ_r by lia. nia.
      * exists []. rewrite app_nil_r. split; [reflexivity |].
        cbn [totalWait fold_right].
        assert (0 < 2 ^ Z.of_nat (S retries)) by (apply Z.pow_pos_nonneg; lia).
        nia.
  - destruct retries; reflexivity.
Qed.

Lemma updateScoreboard_is_bounded_witness :
  (Sync.requests (updateScoreboard flakyServer false None 3 1000 idleSync) <= 4)%nat.
Proof.
  pose proof (updateScoreboard_is_bounded flakyServer None 3 1000 idleSync
                ltac:(lia)) as [[_ H] _].
  exact H.
Defined.
